(** * CyberGuard: the inference engine of [scripts/ml_inference.py]

    A shallow embedding of [CyberAttackPredictor] (feature extraction, risk
    policy, single and batch prediction, loading of the artifact files) and
    of the parts of [scripts/ml_training.py] it depends on (the soft-voting
    ensemble, the saving of the artifact files, the synthetic training data),
    with the properties of the engine's specification and further properties
    of the code stated and proved over it.

    Conventions of the embedding:
    - a Python [str] is a [string] whose characters are read as code points
      below 256; [len] is [String.length];
    - a Python [int] is a [Z], a Python [float] is a primitive binary64
      [float], so [0.1 + 0.1 + 0.1] rounds here as it does in CPython;
    - a [dict] is an association list in insertion order with unique keys;
    - code that may raise returns a [result]; a [try/except Exception] is a
      [match] on it;
    - [datetime.now()] reads an explicit clock: the state threaded through
      [predict] and [batch_predict] counts the readings made so far;
    - [print] output is not part of the model. *)

From Stdlib Require Import ZArith List String Ascii Bool Lia Floats Uint63 QArith.
Import ListNotations.

Set Warnings "-inexact-float,-register-all".

Local Open Scope string_scope.
Local Open Scope list_scope.

(** ** Exceptions and fallible computations *)

(** The subclasses of [Exception] the engine can meet.  [NameError] and
    [KeyError] are raised by the interpreter on the engine's own code;
    [LibraryError] stands for whatever a library call raises (urllib, numpy,
    scikit-learn), carrying its [str()]. *)
Inductive exn : Type :=
| NameError (name : string)
| KeyError (key : string)
| LibraryError (description : string).

(** [str(e)] *)
Definition exn_str (e : exn) : string :=
  match e with
  | NameError name => "name '" ++ name ++ "' is not defined"
  | KeyError key => "'" ++ key ++ "'"
  | LibraryError description => description
  end.

Inductive result (A : Type) : Type :=
| Ok (a : A)
| Raise (e : exn).
Arguments Ok {A} a.
Arguments Raise {A} e.

Definition bind {A B : Type} (c : result A) (k : A -> result B) : result B :=
  match c with
  | Ok a => k a
  | Raise e => Raise e
  end.

Declare Scope exc_scope.
Delimit Scope exc_scope with exc.
Notation "x <- c ;; k" := (bind c (fun x => k))
  (at level 61, c at next level, right associativity) : exc_scope.
Notation "c ;;; k" := (bind c (fun _ => k))
  (at level 61, right associativity) : exc_scope.
Local Open Scope exc_scope.

(** ** Dictionaries *)

Section Dict.
Context {K V : Type}.
Variable keqb : K -> K -> bool.

(** [d.get(k)] *)
Fixpoint dict_get (d : list (K * V)) (k : K) : option V :=
  match d with
  | [] => None
  | (k', v) :: d' => if keqb k' k then Some v else dict_get d' k
  end.

(** [d.get(k, dflt)] *)
Definition dict_get_default (d : list (K * V)) (k : K) (dflt : V) : V :=
  match dict_get d k with
  | Some v => v
  | None => dflt
  end.

(** [d[k] = v]: an existing key keeps its position, a new key goes last. *)
Fixpoint dict_set (d : list (K * V)) (k : K) (v : V) : list (K * V) :=
  match d with
  | [] => [(k, v)]
  | (k', v') :: d' =>
      if keqb k' k then (k', v) :: d' else (k', v') :: dict_set d' k v
  end.

(** [k in d] *)
Definition dict_mem (d : list (K * V)) (k : K) : bool :=
  match dict_get d k with
  | Some _ => true
  | None => false
  end.

(** [d.update(other)] *)
Definition dict_update (d other : list (K * V)) : list (K * V) :=
  fold_left (fun acc kv => dict_set acc (fst kv) (snd kv)) other d.

Definition dict_keys (d : list (K * V)) : list K := map fst d.
Definition dict_values (d : list (K * V)) : list V := map snd d.
End Dict.

(** ** Python values stored in the engine's dictionaries *)

Inductive pyval : Type :=
| PInt (z : Z)
| PFloat (f : float)
| PStr (s : string)
| PDict (d : list (string * pyval)).

Definition pydict : Type := list (string * pyval).

Definition sget (d : pydict) (k : string) : option pyval := dict_get String.eqb d k.
Definition sset (d : pydict) (k : string) (v : pyval) : pydict := dict_set String.eqb d k v.

(** ** Strings *)

Definition code (c : ascii) : nat := nat_of_ascii c.

Definition in_range (lo hi : nat) (c : ascii) : bool :=
  (lo <=? code c)%nat && (code c <=? hi)%nat.

(** [str.lower] on one code point below 256: [A]-[Z] and the Latin-1 capitals
    (U+00C0-U+00DE without the multiplication sign U+00D7) move up by 32. *)
Definition lower_char (c : ascii) : ascii :=
  if in_range 65 90 c then ascii_of_nat (code c + 32)
  else if in_range 192 222 c && negb (code c =? 215)%nat then ascii_of_nat (code c + 32)
  else c.

Fixpoint lower (s : string) : string :=
  match s with
  | EmptyString => EmptyString
  | String c s' => String (lower_char c) (lower s')
  end.

(** [pat in s] *)
Fixpoint contains (s pat : string) : bool :=
  String.prefix pat s ||
  match s with
  | EmptyString => false
  | String _ s' => contains s' pat
  end.

(** [s.split(sep)] for a one-character separator. *)
Fixpoint split_on (sep : ascii) (s : string) : list string :=
  match s with
  | EmptyString => [EmptyString]
  | String c s' =>
      if Ascii.eqb c sep then EmptyString :: split_on sep s'
      else match split_on sep s' with
           | h :: t => String c h :: t
           | [] => [String c EmptyString]
           end
  end.

(** [len(s)] *)
Definition len (s : string) : Z := Z.of_nat (String.length s).

(** [len(re.findall(cls, s))] for a pattern matching one character. *)
Fixpoint count_chars (p : ascii -> bool) (s : string) : Z :=
  match s with
  | EmptyString => 0
  | String c s' => (if p c then 1 else 0) + count_chars p s'
  end.

Definition quote_char : ascii := ascii_of_nat 34.
Definition apostrophe_char : ascii := ascii_of_nat 39.

(** The character class of [special_char_count]: the punctuation listed
    below, the apostrophe and the double quote (written by their codes). *)
Definition special_chars : list ascii :=
  list_ascii_of_string "!@#$%^&*()_+-=[]{};:\|,.<>/?" ++ [apostrophe_char; quote_char].

Definition is_special (c : ascii) : bool := existsb (Ascii.eqb c) special_chars.

(** [\d] on code points below 256. *)
Definition is_digit (c : ascii) : bool := in_range 48 57 c.

(** [[0-9A-Fa-f]] *)
Definition is_hex (c : ascii) : bool :=
  in_range 48 57 c || in_range 65 70 c || in_range 97 102 c.

(** [len(re.findall(r'%[0-9A-Fa-f]{2}', s))]: leftmost, non-overlapping. *)
Fixpoint count_encoded (s : string) : Z :=
  match s with
  | EmptyString => 0
  | String c s' =>
      match s' with
      | String a (String b rest) =>
          if Ascii.eqb c "%" && is_hex a && is_hex b
          then 1 + count_encoded rest
          else count_encoded s'
      | _ => count_encoded s'
      end
  end.

(** ** Numbers *)

Local Open Scope Z_scope.

(** [float(n)] for an [int] of the sizes met here (lengths, counts, clock
    differences: below 2^63 in absolute value). *)
Definition float_of_Z (z : Z) : float :=
  match z with
  | Zneg p => PrimFloat.opp (PrimFloat.of_uint63 (Uint63.of_Z (Zpos p)))
  | _ => PrimFloat.of_uint63 (Uint63.of_Z z)
  end.

(** [min(a, b)] on floats: the first argument unless the second is smaller. *)
Definition py_min (a b : float) : float :=
  if PrimFloat.ltb b a then b else a.

(** [a >= b] on floats; false when either is NaN. *)
Definition float_ge (a b : float) : bool := PrimFloat.leb b a.

(** [np.max] of a vector: NaN if any entry is NaN, [ValueError] on an empty one. *)
Definition np_max (v : list float) : result float :=
  match v with
  | [] => Raise (LibraryError
            "zero-size array to reduction operation maximum which has no identity")
  | x :: rest =>
      Ok (fold_left (fun m y =>
                       if PrimFloat.is_nan m then m
                       else if PrimFloat.is_nan y then y
                       else if PrimFloat.ltb m y then y else m) rest x)
  end.

(** ** The loaded predictor *)

(** A fitted classifier as the engine uses it: [model.predict(X)[0]] and
    [model.predict_proba(X)[0]] on a one-row matrix [X]. *)
Record classifier : Type := {
  clf_predict : list float -> result Z;
  clf_predict_proba : list float -> result (list float)
}.

(** The attributes [load_models] sets on [self].  [scaler_transform] is
    [self.scaler.transform(np.array(v).reshape(1, -1))] and
    [label_inverse_transform] is
    [self.label_encoder.inverse_transform([i])[0]]. *)
Record CyberAttackPredictor : Type := {
  model_version : string;
  models : list (string * classifier);
  scaler_transform : list pyval -> result (list float);
  label_inverse_transform : Z -> result string;
  feature_columns : list string;
  attack_types : list string
}.

(** The result of [urlparse], with the attributes the extractor reads. *)
Record ParseResult : Type := {
  netloc : string;
  path : string;
  query : string
}.

(** ** Name resolution in [ml_inference.py] *)

(** The names bound at module level: the imports of lines 7-13, the class and
    [main].  [math], [re], [urlparse] and [parse_qs] are imported inside
    [extract_features] and are local to it. *)
Definition module_globals : list string :=
  ["joblib"; "json"; "np"; "pd"; "Dict"; "List"; "Tuple"; "Optional"; "os";
   "datetime"; "CyberAttackPredictor"; "main"].

(** Loading a name that is no local of the running function and no builtin. *)
Definition load_global (name : string) : result unit :=
  if existsb (String.eqb name) module_globals then Ok tt
  else Raise (NameError name).

(** ** Feature extraction *)

Definition common_patterns : list string :=
  [".com"; ".org"; ".net"; "www."; "http"; "https"].

Definition _calculate_frequency_score (url : string) : float :=
  let score :=
    fold_left (fun score pattern =>
                 if contains (lower url) pattern then (score + 0.1)%float else score)
              common_patterns 0.0%float in
  py_min score 1.0%float.

Definition suspicious_keywords : list string :=
  ["admin"; "root"; "password"; "passwd"; "login"; "cmd"; "shell";
   "union"; "select"; "insert"; "delete"; "drop"; "exec"; "script";
   "alert"; "prompt"; "confirm"; "javascript"; "vbscript";
   "../"; "..\"; "/etc/"; "/proc/"; "/var/";
   "|"; "&"; ";"; "`"; "$("].

Definition _count_suspicious_keywords (url : string) : Z :=
  let url_lower := lower url in
  fold_left (fun count keyword =>
               if contains url_lower keyword then count + 1 else count)
            suspicious_keywords 0.

(** The first loop of [_calculate_entropy]: character frequencies. *)
Definition char_counts_of (text : string) : list (ascii * Z) :=
  fold_left (fun char_counts char =>
               dict_set Ascii.eqb char_counts char
                        (dict_get_default Ascii.eqb char_counts char 0 + 1))
            (list_ascii_of_string text) [].

(** ** Risk policy *)

Definition high_risk_attacks : list string :=
  ["sqli"; "xss"; "command_injection"; "web_shell"; "xxe"].

Definition _determine_risk_level (attack_type : string) (confidence : float) : string :=
  if String.eqb attack_type "benign" then "low"
  else if existsb (String.eqb attack_type) high_risk_attacks then
    if float_ge confidence 0.9 then "critical"
    else if float_ge confidence 0.7 then "high"
    else "medium"
  else
    if float_ge confidence 0.9 then "high"
    else if float_ge confidence 0.7 then "medium"
    else "low".

(** The values [predict] has computed when it starts to assemble its result. *)
Record Prediction : Type := {
  p_attack_type : string;
  p_confidence : float;
  p_risk_level : string;
  p_all_probabilities : pydict;
  p_features : pydict;
  p_model_used : string
}.

(** ** The environment of the engine *)

(** What the engine takes from outside its own code: the library functions
    it calls and the wall clock.  [math_log2] is what [math.log2] computes
    for a caller that has the name [math] in scope; [clock n] is the [n]-th
    reading of [datetime.now()], in microseconds; [isoformat] is
    [datetime.isoformat]. *)
Record Env : Type := {
  urlparse : string -> result ParseResult;
  parse_qs : string -> result (list (string * list string));
  math_log2 : float -> result float;
  clock : nat -> Z;
  isoformat : Z -> string
}.

Section Engine.

Variable env : Env.

(** The second loop of [_calculate_entropy].  The name [math] is looked up
    each time the loop body runs. *)
Fixpoint entropy_loop (counts : list Z) (text_length : Z) (entropy : float)
  : result float :=
  match counts with
  | [] => Ok entropy
  | count :: rest =>
      let probability := (float_of_Z count / float_of_Z text_length)%float in
      load_global "math" ;;;
      l <- math_log2 env probability ;;
      entropy_loop rest text_length (entropy - probability * l)%float
  end.

Definition _calculate_entropy (text : string) : result float :=
  if String.eqb text "" then Ok 0.0%float
  else
    let char_counts := char_counts_of text in
    entropy_loop (dict_values char_counts) (len text) 0.0%float.

(** The [try] block of [extract_features].  The entries of the dictionary
    literal are evaluated in order; [parse_qs] is the only one that can
    raise, so its call is written first. *)
Definition extract_features_body (url : string) (additional_features : option pydict)
  : result pydict :=
  parsed <- urlparse env url ;;
  let domain := netloc parsed in
  let path := path parsed in
  let query := query parsed in
  params <- parse_qs env query ;;
  let features : pydict :=
    [("url_length", PInt (len url));
     ("domain_length", PInt (len domain));
     ("path_length", PInt (len path));
     ("query_length", PInt (len query));
     ("special_char_count", PInt (count_chars is_special url));
     ("digit_count", PInt (count_chars is_digit url));
     ("path_depth",
       PInt (Z.of_nat (List.length
               (filter (fun p => negb (String.eqb p "")) (split_on "/" path)))));
     ("subdomain_count",
       PInt (Z.max 0 (Z.of_nat (List.length (split_on "." domain)) - 2)));
     ("parameter_count", PInt (Z.of_nat (List.length params)));
     ("encoded_chars_count", PInt (count_encoded url));
     ("frequency_score", PFloat (_calculate_frequency_score url));
     ("suspicious_keyword_count", PInt (_count_suspicious_keywords url))] in
  entropy <- _calculate_entropy url ;;
  let features := sset features "entropy" (PFloat entropy) in
  let features :=
    match additional_features with
    | Some (kv :: more) => dict_update String.eqb features (kv :: more)
    | _ => features
    end in
  Ok features.

(** [{col: 0 for col in self.feature_columns}] *)
Definition default_features (self : CyberAttackPredictor) : pydict :=
  fold_left (fun d col => sset d col (PInt 0)) (feature_columns self) [].

Definition extract_features (self : CyberAttackPredictor) (url : string)
           (additional_features : option pydict) : pydict :=
  match extract_features_body url additional_features with
  | Ok features => features
  | Raise _ => default_features self
  end.

(** ** Prediction *)

(** The loop of [predict] that prepares the feature vector. *)
Definition feature_vector_of (self : CyberAttackPredictor) (features : pydict)
  : list pyval :=
  fold_left (fun feature_vector col =>
               feature_vector ++ [dict_get_default String.eqb features col (PInt 0)])
            (feature_columns self) [].

(** The loop of [predict] over [enumerate(probabilities)], from index [i]. *)
Fixpoint all_probabilities_loop (self : CyberAttackPredictor) (i : Z)
         (probabilities : list float) (all_probabilities : pydict) : result pydict :=
  match probabilities with
  | [] => Ok all_probabilities
  | prob :: rest =>
      attack_name <- label_inverse_transform self i ;;
      all_probabilities_loop self (i + 1) rest
                             (sset all_probabilities attack_name (PFloat prob))
  end.

(** [self.models[model_type]] *)
Definition models_getitem (self : CyberAttackPredictor) (model_type : string)
  : result classifier :=
  match dict_get String.eqb (models self) model_type with
  | Some model => Ok model
  | None => Raise (KeyError model_type)
  end.

(** The [try] block of [predict] between the first and the second reading
    of the clock. *)
Definition predict_pipeline (self : CyberAttackPredictor) (url model_type : string)
  : result Prediction :=
  let features := extract_features self url None in
  let feature_vector := feature_vector_of self features in
  feature_vector_scaled <- scaler_transform self feature_vector ;;
  let model_type :=
    if dict_mem String.eqb (models self) model_type then model_type
    else "ensemble" in
  model <- models_getitem self model_type ;;
  prediction <- clf_predict model feature_vector_scaled ;;
  probabilities <- clf_predict_proba model feature_vector_scaled ;;
  attack_type <- label_inverse_transform self prediction ;;
  confidence <- np_max probabilities ;;
  all_probabilities <- all_probabilities_loop self 0 probabilities [] ;;
  let risk_level := _determine_risk_level attack_type confidence in
  Ok {| p_attack_type := attack_type;
        p_confidence := confidence;
        p_risk_level := risk_level;
        p_all_probabilities := all_probabilities;
        p_features := features;
        p_model_used := model_type |}.

(** [(datetime.now() - start_time).total_seconds() * 1000] *)
Definition processing_time_ms (start_time now : Z) : float :=
  (float_of_Z (now - start_time) / 1000000 * 1000)%float.

Definition success_result (self : CyberAttackPredictor) (url : string)
           (p : Prediction) (processing_time : float) (timestamp : string) : pydict :=
  [("url", PStr url);
   ("predicted_attack_type", PStr (p_attack_type p));
   ("confidence", PFloat (p_confidence p));
   ("risk_level", PStr (p_risk_level p));
   ("all_probabilities", PDict (p_all_probabilities p));
   ("features", PDict (p_features p));
   ("model_used", PStr (p_model_used p));
   ("model_version", PStr (model_version self));
   ("processing_time_ms", PFloat processing_time);
   ("timestamp", PStr timestamp)].

Definition error_result (url : string) (e : exn) (timestamp : string) : pydict :=
  [("url", PStr url);
   ("error", PStr (exn_str e));
   ("timestamp", PStr timestamp)].

(** [predict], from clock state [t] (the number of readings made before the
    call); returns the result and the new clock state. *)
Definition predict (self : CyberAttackPredictor) (url model_type : string) (t : nat)
  : pydict * nat :=
  let start_time := clock env t in
  match predict_pipeline self url model_type with
  | Ok p =>
      let processing_time := processing_time_ms start_time (clock env (t + 1)%nat) in
      (success_result self url p processing_time (isoformat env (clock env (t + 2)%nat)),
       (t + 3)%nat)
  | Raise e =>
      (error_result url e (isoformat env (clock env (t + 1)%nat)), (t + 2)%nat)
  end.

Definition batch_predict (self : CyberAttackPredictor) (urls : list string)
           (model_type : string) (t : nat) : list pydict * nat :=
  fold_left (fun (acc : list pydict * nat) url =>
               let (result, t') := predict self url model_type (snd acc) in
               (fst acc ++ [result], t'))
            urls ([], t).

End Engine.

(** ** The ensemble built by [ml_training.py] *)

Module Training.

Local Open Scope Q_scope.

(** [self.feature_columns] of [CyberAttackMLTrainer], which [save_models]
    writes to the metadata the predictor loads. *)
Definition feature_columns : list string :=
  ["url_length"; "domain_length"; "path_length"; "query_length";
   "special_char_count"; "digit_count"; "entropy"; "path_depth";
   "subdomain_count"; "parameter_count"; "encoded_chars_count";
   "frequency_score"; "suspicious_keyword_count"]%string.

(** A fitted model on one scaled row: its class distribution and its
    predicted class index.  Probabilities are exact rationals here. *)
Record model : Type := {
  predict_proba : list Q -> list Q;
  predict : list Q -> nat
}.

(** Sum of two distributions, class by class. *)
Definition vadd (u v : list Q) : list Q :=
  map (fun ab => fst ab + snd ab) (combine u v).

(** [np.average(rows, axis=0)] without weights: the sum of the rows
    divided by their number. *)
Definition average (rows : list (list Q)) : list Q :=
  match rows with
  | [] => []
  | r :: rest =>
      map (fun s => s / inject_Z (Z.of_nat (List.length rows))) (fold_left vadd rest r)
  end.

(** [np.argmax]: the first index that holds the largest entry. *)
Fixpoint argmax_from (best_i : nat) (best : Q) (i : nat) (v : list Q) : nat :=
  match v with
  | [] => best_i
  | x :: v' =>
      if Qle_bool x best then argmax_from best_i best (S i) v'
      else argmax_from i x (S i) v'
  end.

Definition argmax (v : list Q) : nat :=
  match v with
  | [] => 0%nat
  | x :: v' => argmax_from 0 x 1 v'
  end.

(** Modelled from the spec: scikit-learn's [VotingClassifier] with
    [voting='soft'] and no weights, which the repository imports but does
    not contain, once it is fitted.  Its distribution is the arithmetic mean,
    per class, of the distributions of its fitted members, each member
    weighted equally; its predicted class is the argmax of that mean, the
    lowest index winning a tie. *)
Definition VotingClassifier_soft (estimators : list (string * model)) : model :=
  let proba := fun x => average (map (fun e => predict_proba (snd e) x) estimators) in
  {| predict_proba := proba;
     predict := fun x => argmax (proba x) |}.

(** [self.models[name]] *)
Definition models_getitem (models : list (string * model)) (name : string)
  : result model :=
  match dict_get String.eqb models name with
  | Some m => Ok m
  | None => Raise (KeyError name)
  end.

Section Fit.

(** The training data [X] and [y] of [create_ensemble]. *)
Context {Features Labels : Type}.

(** [check_targets y] is the outcome of the checks [fit] makes on the
    targets before it fits any member (they must be classification targets
    with one label per sample). *)
Variable check_targets : Labels -> result unit.

(** [refit member X y] is the outcome of fitting a copy of [member] on
    [X, y]: the fitted copy, or the exception the fit raises. *)
Variable refit : model -> Features -> Labels -> result model.

(** Modelled from the spec: the members a [VotingClassifier] holds after
    [fit(X, y)].  A copy of each estimator is fitted on [X, y], in the order
    of [estimators]; the first fit that raises ends the call. *)
Fixpoint fit_members (estimators : list (string * model)) (X : Features) (y : Labels)
  : result (list (string * model)) :=
  match estimators with
  | [] => Ok []
  | (name, member) :: rest =>
      fitted <- refit member X y ;;
      others <- fit_members rest X y ;;
      Ok ((name, fitted) :: others)
  end.

(** [VotingClassifier(estimators, voting='soft').fit(X, y)].  The classes
    of the fitted ensemble are the labels found in [y]; on the targets
    [prepare_data] encodes as 0, 1, ... a class is its own index. *)
Definition VotingClassifier_fit (estimators : list (string * model))
           (X : Features) (y : Labels) : result model :=
  check_targets y ;;;
  fitted <- fit_members estimators X y ;;
  Ok (VotingClassifier_soft fitted).

(** [create_ensemble(X, y)]: returns the ensemble and the updated
    [self.models]; nothing is stored when a lookup or the fit raises. *)
Definition create_ensemble (models : list (string * model))
           (X : Features) (y : Labels)
  : result (model * list (string * model)) :=
  rf <- models_getitem models "random_forest" ;;
  xgb <- models_getitem models "xgboost" ;;
  ensemble <- VotingClassifier_fit [("rf"%string, rf); ("xgb"%string, xgb)] X y ;;
  Ok (ensemble, dict_set String.eqb models "ensemble"%string ensemble).

End Fit.

(** Two members with the fixed distributions of the specification's example,
    targets that pass the checks, and a fit that gives each copy the
    distribution of its original. *)
Definition constant_model (dist : list Q) : model :=
  {| predict_proba := fun _ => dist; predict := fun _ => argmax dist |}.

Definition example_models : list (string * model) :=
  [("random_forest"%string, constant_model [0.2; 0.8]);
   ("xgboost"%string, constant_model [0.6; 0.4])].

Definition example_check (y : unit) : result unit := Ok tt.

Definition example_refit (member : model) (X y : unit) : result model :=
  Ok member.

End Training.

(** ** A reference environment and bundle for the examples *)

Module Example.

(** The part of [s] before the first character satisfying [stop], and the
    rest from that character on. *)
Fixpoint break_at (stop : ascii -> bool) (s : string) : string * string :=
  match s with
  | EmptyString => (EmptyString, EmptyString)
  | String c s' =>
      if stop c then (EmptyString, s)
      else let (a, b) := break_at stop s' in (String c a, b)
  end.

Definition drop_first (s : string) : string :=
  match s with
  | EmptyString => EmptyString
  | String _ s' => s'
  end.

(** [urlparse] on URLs of the plain shape [scheme://host/path?query] (no
    fragment, no parameters): enough to run the extractor on examples. *)
Definition plain_urlparse (url : string) : result ParseResult :=
  let rest_netloc :=
    match String.index 0 "://" url with
    | Some n =>
        let after := String.substring (n + 3) (String.length url - (n + 3)) url in
        let (host, rest) :=
          break_at (fun c => Ascii.eqb c "/" || Ascii.eqb c "?") after in
        (rest, host)
    | None => (url, EmptyString)
    end in
  let (p, q) := break_at (fun c => Ascii.eqb c "?") (fst rest_netloc) in
  Ok {| netloc := snd rest_netloc; path := p; query := drop_first q |}.

(** [parse_qs] on [name=value&...] without escapes: names with a non-blank
    value, each once, with their values. *)
Definition plain_parse_qs (query : string) : result (list (string * list string)) :=
  Ok (fold_left
        (fun d piece =>
           let (name, v) := break_at (fun c => Ascii.eqb c "=") piece in
           let value := drop_first v in
           if String.eqb value "" then d
           else dict_set String.eqb d name
                         (dict_get_default String.eqb d name [] ++ [value]))
        (split_on "&" query) []).

Definition env : Env :=
  {| urlparse := plain_urlparse;
     parse_qs := plain_parse_qs;
     math_log2 := fun _ => Raise (LibraryError "math domain error");
     clock := fun n => 1700000000000000 + 250 * Z.of_nat n;
     isoformat := fun _ => "2023-11-14T22:13:20" |}.

(** A scaler with the given statistics: fails on a vector of another
    length or with a non-numeric entry. *)
Fixpoint scale_with (stats : list (float * float)) (v : list pyval)
  : result (list float) :=
  match stats, v with
  | [], [] => Ok []
  | (mean, scale) :: stats', x :: v' =>
      xf <- match x with
            | PInt z => Ok (float_of_Z z)
            | PFloat f => Ok f
            | _ => Raise (LibraryError "could not convert string to float")
            end ;;
      rest <- scale_with stats' v' ;;
      Ok (((xf - mean) / scale)%float :: rest)
  | _, _ => Raise (LibraryError "X has a different number of features than the scaler")
  end.

Definition classes : list string := ["benign"; "sqli"; "xss"].

Definition inverse_transform (i : Z) : result string :=
  if (0 <=? i) && (i <? Z.of_nat (List.length classes))
  then Ok (nth (Z.to_nat i) classes "")
  else Raise (LibraryError "y contains previously unseen labels").

Definition constant_classifier (label : Z) (dist : list float) : classifier :=
  {| clf_predict := fun _ => Ok label;
     clf_predict_proba := fun _ => Ok dist |}.

Definition stats : list (float * float) :=
  map (fun _ => (0.0%float, 1.0%float)) Training.feature_columns.

Definition predictor : CyberAttackPredictor :=
  {| model_version := "1.0.0";
     models := [("random_forest", constant_classifier 2 [0.0; 0.2; 0.8]%float);
                ("xgboost", constant_classifier 2 [0.2; 0.2; 0.6]%float);
                ("ensemble", constant_classifier 2 [0.1; 0.2; 0.7]%float)];
     scaler_transform := scale_with stats;
     label_inverse_transform := inverse_transform;
     feature_columns := Training.feature_columns;
     attack_types := classes |}.

(** The same bundle when the ensemble file was missing at load time. *)
Definition predictor_without_ensemble : CyberAttackPredictor :=
  {| model_version := "1.0.0";
     models := [("random_forest", constant_classifier 2 [0.0; 0.2; 0.8]%float)];
     scaler_transform := scale_with stats;
     label_inverse_transform := inverse_transform;
     feature_columns := Training.feature_columns;
     attack_types := classes |}.

End Example.


(** ** Definitions used to state the properties *)

(** The fields of an error result and of a success result, in order. *)
Definition error_fields : list string := ["url"; "error"; "timestamp"].

Definition success_fields : list string :=
  ["url"; "predicted_attack_type"; "confidence"; "risk_level";
   "all_probabilities"; "features"; "model_used"; "model_version";
   "processing_time_ms"; "timestamp"].

(** The fields only a success result has. *)
Definition prediction_fields : list string :=
  ["predicted_attack_type"; "confidence"; "risk_level"; "all_probabilities";
   "features"; "model_used"; "model_version"; "processing_time_ms"].

(** A result without the two fields read from the clock. *)
Definition untimed (r : pydict) : pydict :=
  filter (fun kv => negb (String.eqb (fst kv) "timestamp"
                          || String.eqb (fst kv) "processing_time_ms")) r.

(** The predictor with another scaler in place of its own. *)
Definition with_scaler (self : CyberAttackPredictor)
           (transform : list pyval -> result (list float)) : CyberAttackPredictor :=
  {| model_version := model_version self;
     models := models self;
     scaler_transform := transform;
     label_inverse_transform := label_inverse_transform self;
     feature_columns := feature_columns self;
     attack_types := attack_types self |}.

(** The policy table of the specification, read row by row: the band
    [0.7 <= confidence < 0.9] is written with both of its bounds. *)
Definition risk_policy_table (attack_type : string) (confidence : float) : string :=
  let top := PrimFloat.leb 0.9 confidence in
  let band := PrimFloat.leb 0.7 confidence && PrimFloat.ltb confidence 0.9 in
  if String.eqb attack_type "benign" then "low"
  else if existsb (String.eqb attack_type) high_risk_attacks then
    if top then "critical" else if band then "high" else "medium"
  else
    if top then "high" else if band then "medium" else "low".

(** The running sums [0.0 + 0.1 + ... + 0.1] of [_calculate_frequency_score],
    by the number of patterns found. *)
Definition frequency_steps : list float :=
  [0.0; 0.1; 0.2; 0.30000000000000004; 0.4; 0.5; 0.6]%float.

(** How many of [common_patterns] occur in the lower-cased URL. *)
Definition patterns_present (url : string) : nat :=
  List.length (filter (contains (lower url)) common_patterns).

(** The four risk levels, by increasing severity. *)
Definition risk_levels : list string := ["low"; "medium"; "high"; "critical"].

Definition risk_rank (level : string) : nat :=
  if String.eqb level "critical" then 3
  else if String.eqb level "high" then 2
  else if String.eqb level "medium" then 1
  else 0.

(** ** Artifact files: [load_models], [get_model_info] and [save_models] *)

Module Artifacts.

(** A JSON value as the metadata file holds them: a string, a list of strings
    or an object.  [json.dump] followed by [json.load] returns such a value
    unchanged. *)
Inductive jval : Type :=
| JStr (s : string)
| JList (items : list string)
| JObj (fields : list (string * jval)).

(** [for x in v]: the items of a list, the characters of a string, the keys
    of an object. *)
Definition jval_iter (v : jval) : list string :=
  match v with
  | JStr s => map (fun c => String c EmptyString) (list_ascii_of_string s)
  | JList items => items
  | JObj fields => dict_keys fields
  end.

(** [d[key]] on a JSON object. *)
Definition jdict_getitem (d : list (string * jval)) (key : string) : result jval :=
  match dict_get String.eqb d key with
  | Some v => Ok v
  | None => Raise (KeyError key)
  end.

(** The file names both scripts build with f-strings. *)
Definition models_dir : string := "models".

Definition model_path (model_type model_version : string) : string :=
  models_dir ++ "/" ++ model_type ++ "_v" ++ model_version ++ ".pkl".

Definition scaler_path (model_version : string) : string :=
  models_dir ++ "/scaler_v" ++ model_version ++ ".pkl".

Definition encoder_path (model_version : string) : string :=
  models_dir ++ "/label_encoder_v" ++ model_version ++ ".pkl".

Definition metadata_path (model_version : string) : string :=
  models_dir ++ "/metadata_v" ++ model_version ++ ".json".

(** The length of a string in bytes once encoded in UTF-8 (code points below
    256 take one or two bytes). *)
Fixpoint utf8_length (s : string) : nat :=
  match s with
  | EmptyString => 0
  | String c s' => ((if (code c <? 128)%nat then 1 else 2) + utf8_length s')%nat
  end.

(** A name the operating system takes as the name of one file: not empty,
    not [.] or [..], without [/] and without the NUL character, and at most
    255 bytes long. *)
Definition plain_file_name (name : string) : bool :=
  forallb (fun c => negb (Ascii.eqb c "/") && negb (code c =? 0)%nat)
          (list_ascii_of_string name)
  && negb (String.eqb name "") && negb (String.eqb name ".")
  && negb (String.eqb name "..")
  && (utf8_length name <=? 255)%nat.

(** [s] without its prefix [p], when it starts with [p]. *)
Fixpoint strip_prefix (p s : string) : option string :=
  match p with
  | EmptyString => Some s
  | String a p' =>
      match s with
      | EmptyString => None
      | String b s' => if Ascii.eqb a b then strip_prefix p' s' else None
      end
  end.

(** A path that names a file directly inside [models_dir]. *)
Definition plain_artifact_path (path : string) : bool :=
  match strip_prefix (models_dir ++ "/") path with
  | Some name => plain_file_name name
  | None => false
  end.

Section Files.

(** The Python objects that [joblib] pickles: fitted models, the scaler, the
    label encoder.  Neither script looks inside them when saving or loading,
    and [joblib.load] returns what [joblib.dump] wrote. *)
Variable Obj : Type.

Inductive file : Type :=
| PickleFile (o : Obj)
| JsonFile (d : list (string * jval)).

(** The files under the working directory, by path. *)
Definition filesystem : Type := list (string * file).

Definition no_such_file (path : string) : exn :=
  LibraryError ("[Errno 2] No such file or directory: '" ++ path ++ "'").

(** [os.path.exists(path)] *)
Definition os_path_exists (fs : filesystem) (path : string) : bool :=
  dict_mem String.eqb fs path.

(** [joblib.load(path)] *)
Definition joblib_load (fs : filesystem) (path : string) : result Obj :=
  match dict_get String.eqb fs path with
  | Some (PickleFile o) => Ok o
  | Some (JsonFile _) => Raise (LibraryError "invalid load key")
  | None => Raise (no_such_file path)
  end.

(** [json.load(open(path))] *)
Definition json_load (fs : filesystem) (path : string)
  : result (list (string * jval)) :=
  match dict_get String.eqb fs path with
  | Some (JsonFile d) => Ok d
  | Some (PickleFile _) => Raise (LibraryError "invalid JSON document")
  | None => Raise (no_such_file path)
  end.

(** [os.makedirs(dir, exist_ok=True)]: an existing directory is accepted, a
    regular file of that name is not. *)
Definition os_makedirs (fs : filesystem) (dir : string) : result unit :=
  match dict_get String.eqb fs dir with
  | Some _ => Raise (LibraryError ("[Errno 17] File exists: '" ++ dir ++ "'"))
  | None => Ok tt
  end.

(** What the operating system does with a write to a path that is no plain
    file name directly inside [models_dir].  Such a path runs through further
    directories, which the file map does not record: the write may fail with
    [FileNotFoundError], or reach a file that other path strings name too. *)
Variable write_elsewhere : filesystem -> string -> file -> result filesystem.

(** [joblib.dump(o, path)] and [json.dump(d, open(path, 'w'))].  The file map
    stands for a file system with case-sensitive names in which [models_dir]
    holds regular files only: there a plain file name directly inside
    [models_dir] is created or overwritten, and any other path is left to
    [write_elsewhere]. *)
Definition write_file (fs : filesystem) (path : string) (f : file)
  : result filesystem :=
  if plain_artifact_path path then Ok (dict_set String.eqb fs path f)
  else write_elsewhere fs path f.

(** The attributes of a [CyberAttackPredictor] once [__init__] has returned. *)
Record Loaded : Type := {
  ld_model_version : string;
  ld_models : list (string * Obj);
  ld_scaler : Obj;
  ld_label_encoder : Obj;
  ld_metadata : list (string * jval);
  ld_feature_columns : jval;
  ld_attack_types : jval
}.

(** The loop of [load_models] over the model types of the metadata. *)
Fixpoint load_model_files (fs : filesystem) (model_version : string)
         (model_types : list string) (models : list (string * Obj))
  : result (list (string * Obj)) :=
  match model_types with
  | [] => Ok models
  | model_type :: rest =>
      let path := model_path model_type model_version in
      if os_path_exists fs path then
        model <- joblib_load fs path ;;
        load_model_files fs model_version rest
                         (dict_set String.eqb models model_type model)
      else load_model_files fs model_version rest models
  end.

(** [CyberAttackPredictor(model_version)]: [__init__] calls [load_models],
    whose handler prints and raises again, so a failure leaves no predictor. *)
Definition load_models (fs : filesystem) (model_version : string) : result Loaded :=
  metadata <- json_load fs (metadata_path model_version) ;;
  feature_columns <- jdict_getitem metadata "feature_columns" ;;
  attack_types <- jdict_getitem metadata "attack_types" ;;
  model_types <- jdict_getitem metadata "model_types" ;;
  models <- load_model_files fs model_version (jval_iter model_types) [] ;;
  scaler <- joblib_load fs (scaler_path model_version) ;;
  label_encoder <- joblib_load fs (encoder_path model_version) ;;
  Ok {| ld_model_version := model_version;
        ld_models := models;
        ld_scaler := scaler;
        ld_label_encoder := label_encoder;
        ld_metadata := metadata;
        ld_feature_columns := feature_columns;
        ld_attack_types := attack_types |}.

Definition get_model_info (self : Loaded) : list (string * jval) :=
  [("version", JStr (ld_model_version self));
   ("available_models", JList (dict_keys (ld_models self)));
   ("feature_columns", ld_feature_columns self);
   ("attack_types", ld_attack_types self);
   ("metadata", JObj (ld_metadata self))].

(** The attributes of a [CyberAttackMLTrainer] that [save_models] reads. *)
Record Trainer : Type := {
  tr_models : list (string * Obj);
  tr_scalers : list (string * Obj);
  tr_label_encoders : list (string * Obj);
  tr_feature_columns : list string
}.

(** The first loop of [save_models]: one pickle per model; the first write
    that fails ends it, with the files written so far. *)
Fixpoint save_model_files (models : list (string * Obj)) (model_version : string)
         (fs : filesystem) : filesystem * result unit :=
  match models with
  | [] => (fs, Ok tt)
  | (model_name, model) :: rest =>
      match write_file fs (model_path model_name model_version) (PickleFile model) with
      | Ok fs' => save_model_files rest model_version fs'
      | Raise e => (fs, Raise e)
      end
  end.

(** The rest of [save_models] once the models are written: the scaler, the
    label encoder and the metadata. *)
Definition save_preprocessors_and_metadata
           (classes_ : Obj -> list string) (created_at : string)
           (self : Trainer) (model_version : string) (fs : filesystem)
  : filesystem * result string :=
  match dict_get String.eqb (tr_scalers self) "features" with
  | None => (fs, Raise (KeyError "features"))
  | Some scaler =>
      match write_file fs (scaler_path model_version) (PickleFile scaler) with
      | Raise e => (fs, Raise e)
      | Ok fs =>
          match dict_get String.eqb (tr_label_encoders self) "attack_type" with
          | None => (fs, Raise (KeyError "attack_type"))
          | Some encoder =>
              match write_file fs (encoder_path model_version) (PickleFile encoder) with
              | Raise e => (fs, Raise e)
              | Ok fs =>
                  let metadata :=
                    [("version", JStr model_version);
                     ("feature_columns", JList (tr_feature_columns self));
                     ("attack_types", JList (classes_ encoder));
                     ("created_at", JStr created_at);
                     ("model_types", JList (dict_keys (tr_models self)))] in
                  match write_file fs (metadata_path model_version)
                                   (JsonFile metadata) with
                  | Raise e => (fs, Raise e)
                  | Ok fs => (fs, Ok models_dir)
                  end
              end
          end
      end
  end.

(** [save_models(model_version)]: the files after the call, and its return
    value or the exception it raises.  [classes_] reads the attribute of
    that name off the label encoder; [created_at] is
    [datetime.now().isoformat()] at the time of the call. *)
Definition save_models (classes_ : Obj -> list string) (created_at : string)
           (self : Trainer) (model_version : string) (fs : filesystem)
  : filesystem * result string :=
  match os_makedirs fs models_dir with
  | Raise e => (fs, Raise e)
  | Ok _ =>
      match save_model_files (tr_models self) model_version fs with
      | (fs, Raise e) => (fs, Raise e)
      | (fs, Ok _) =>
          save_preprocessors_and_metadata classes_ created_at self model_version fs
      end
  end.

End Files.

Arguments PickleFile {Obj} o.
Arguments JsonFile {Obj} d.

(** A trainer after [main] has run, with its objects named by strings, and
    the file system after its [save_models]. *)
Definition example_trainer : Trainer string :=
  {| tr_models := [("random_forest", "RandomForestClassifier");
                   ("xgboost", "XGBClassifier");
                   ("ensemble", "VotingClassifier")];
     tr_scalers := [("features", "StandardScaler")];
     tr_label_encoders := [("attack_type", "LabelEncoder")];
     tr_feature_columns := Training.feature_columns |}.

Definition example_classes (encoder : string) : list string :=
  ["benign"; "sqli"; "xss"].

(** An operating system that has no directory inside [models_dir]. *)
Definition no_subdirectories (fs : filesystem string) (path : string)
           (f : file string) : result (filesystem string) :=
  Raise (no_such_file path).

Definition example_files : filesystem string :=
  fst (save_models string no_subdirectories example_classes "2023-11-14T22:13:20"
                   example_trainer "1.0.0" []).

End Artifacts.

(** The last character of a string, if any. *)
Fixpoint last_char (s : string) : option ascii :=
  match s with
  | EmptyString => None
  | String c EmptyString => Some c
  | String _ s' => last_char s'
  end.

(** ** Synthetic training data of [ml_training.py] *)

Module TrainingData.

(** [numpy.random]: what the [n]-th call since [np.random.seed(42)] returns,
    for each of the generators the trainer uses. *)
Record Rng : Type := {
  normal : nat -> float -> float -> float;
  poisson : nat -> Z -> Z;
  beta : nat -> float -> float -> float;
  random : nat -> float;
  choice : nat -> list string -> string
}.

(** [a < b] on numbers. *)
Definition py_lt (a b : pyval) : bool :=
  match a, b with
  | PInt x, PInt y => x <? y
  | PInt x, PFloat g => PrimFloat.ltb (float_of_Z x) g
  | PFloat f, PInt y => PrimFloat.ltb f (float_of_Z y)
  | PFloat f, PFloat g => PrimFloat.ltb f g
  | _, _ => false
  end.

(** [max(a, b)] and [min(a, b)]: the first argument unless the second is
    larger (smaller). *)
Definition py_max (a b : pyval) : pyval := if py_lt a b then b else a.
Definition py_min (a b : pyval) : pyval := if py_lt b a then b else a.

(** [a + b] on numbers. *)
Definition py_add (a b : pyval) : pyval :=
  match a, b with
  | PInt x, PInt y => PInt (x + y)
  | PInt x, PFloat g => PFloat (float_of_Z x + g)
  | PFloat f, PInt y => PFloat (f + float_of_Z y)
  | PFloat f, PFloat g => PFloat (f + g)
  | _, _ => a
  end.

(** [d[key]] for a key the dictionary has. *)
Definition getitem (d : pydict) (key : string) : pyval :=
  dict_get_default String.eqb d key (PInt 0).

(** [d[key] += v] *)
Definition add_to (d : pydict) (key : string) (v : pyval) : pydict :=
  sset d key (py_add (getitem d key) v).

Definition attack_types : list string :=
  ["sqli"; "xss"; "directory_traversal"; "command_injection";
   "ssrf"; "file_inclusion"; "credential_stuffing"; "brute_force";
   "http_parameter_pollution"; "xxe"; "web_shell"; "typosquatting"].

(** The loop of [_generate_attack_features] under the comment
    [Ensure positive values]. *)
Definition ensure_positive (base_features : pydict) : pydict :=
  fold_left (fun d key =>
               if negb (String.eqb key "frequency_score")
               then sset d key (py_max (PInt 0) (getitem d key))
               else sset d key (py_max (PInt 0) (py_min (PInt 1) (getitem d key))))
            (dict_keys base_features) base_features.

(** [_generate_attack_features(attack_type)], from the [n]-th random draw on;
    returns the features and the number of draws made so far. *)
Definition _generate_attack_features (rng : Rng) (attack_type : string) (n : nat)
  : pydict * nat :=
  let base_features : pydict :=
    [("url_length", PFloat (normal rng n 150 50));
     ("domain_length", PFloat (normal rng (n + 1) 15 5));
     ("path_length", PFloat (normal rng (n + 2) 30 15));
     ("query_length", PFloat (normal rng (n + 3) 50 25));
     ("special_char_count", PInt (poisson rng (n + 4) 8));
     ("digit_count", PInt (poisson rng (n + 5) 5));
     ("entropy", PFloat (normal rng (n + 6) 4.5 0.8));
     ("path_depth", PInt (poisson rng (n + 7) 3));
     ("subdomain_count", PInt (poisson rng (n + 8) 1));
     ("parameter_count", PInt (poisson rng (n + 9) 3));
     ("encoded_chars_count", PInt (poisson rng (n + 10) 2));
     ("frequency_score", PFloat (beta rng (n + 11) 2 5));
     ("suspicious_keyword_count", PInt (poisson rng (n + 12) 2))] in
  let n := (n + 13)%nat in
  let modified : pydict * nat :=
    if String.eqb attack_type "sqli" then
      let d := add_to base_features "special_char_count" (PInt (poisson rng n 5)) in
      let d := add_to d "suspicious_keyword_count" (PInt (poisson rng (n + 1) 3)) in
      let d := add_to d "query_length" (PFloat (normal rng (n + 2) 30 10)) in
      (d, (n + 3)%nat)
    else if String.eqb attack_type "xss" then
      let d := add_to base_features "special_char_count" (PInt (poisson rng n 8)) in
      let d := add_to d "suspicious_keyword_count" (PInt (poisson rng (n + 1) 2)) in
      let d := add_to d "encoded_chars_count" (PInt (poisson rng (n + 2) 3)) in
      (d, (n + 3)%nat)
    else if String.eqb attack_type "directory_traversal" then
      let d := add_to base_features "path_length" (PFloat (normal rng n 40 15)) in
      let d := add_to d "path_depth" (PInt (poisson rng (n + 1) 2)) in
      let d := add_to d "suspicious_keyword_count" (PInt (poisson rng (n + 2) 1)) in
      (d, (n + 3)%nat)
    else if String.eqb attack_type "command_injection" then
      let d := add_to base_features "special_char_count" (PInt (poisson rng n 6)) in
      let d := add_to d "suspicious_keyword_count" (PInt (poisson rng (n + 1) 2)) in
      (d, (n + 2)%nat)
    else (base_features, n) in
  (ensure_positive (fst modified), snd modified).

Definition _generate_benign_features (rng : Rng) (n : nat) : pydict * nat :=
  ([("url_length", PFloat (normal rng n 80 20));
    ("domain_length", PFloat (normal rng (n + 1) 12 3));
    ("path_length", PFloat (normal rng (n + 2) 20 8));
    ("query_length", PFloat (normal rng (n + 3) 15 10));
    ("special_char_count", PInt (poisson rng (n + 4) 2));
    ("digit_count", PInt (poisson rng (n + 5) 3));
    ("entropy", PFloat (normal rng (n + 6) 3.8 0.5));
    ("path_depth", PInt (poisson rng (n + 7) 2));
    ("subdomain_count", PInt (poisson rng (n + 8) 0));
    ("parameter_count", PInt (poisson rng (n + 9) 1));
    ("encoded_chars_count", PInt (poisson rng (n + 10) 0));
    ("frequency_score", PFloat (beta rng (n + 11) 5 2));
    ("suspicious_keyword_count", PInt 0)],
   (n + 12)%nat).

(** One turn of the loop of [generate_synthetic_data]: the row appended to
    [data] and the number of draws made so far. *)
Definition generate_sample (rng : Rng) (n : nat) : pydict * nat :=
  let is_attack := PrimFloat.ltb (random rng n) 0.8 in
  let n := (n + 1)%nat in
  if is_attack then
    let attack_type := choice rng n attack_types in
    let (features, n) := _generate_attack_features rng attack_type (n + 1)%nat in
    (sset features "attack_type" (PStr attack_type), n)
  else
    let (features, n) := _generate_benign_features rng n in
    (sset features "attack_type" (PStr "benign"), n).

(** [generate_synthetic_data(n_samples)]: the rows of the data frame, the
    draws counted from the call of [np.random.seed(42)]. *)
Fixpoint generate_rows (rng : Rng) (n_samples : nat) (n : nat) : list pydict :=
  match n_samples with
  | O => []
  | S k => let (row, n') := generate_sample rng n in row :: generate_rows rng k n'
  end.

Definition generate_synthetic_data (rng : Rng) (n_samples : nat) : list pydict :=
  generate_rows rng n_samples 0.

(** A deterministic stand-in for the generators, for the examples. *)
Definition example_rng : Rng :=
  {| normal := fun n loc scale => (loc - scale * float_of_Z (Z.of_nat (n mod 7)))%float;
     poisson := fun n lam => lam + Z.of_nat (n mod 3);
     beta := fun n a b => (a / (a + b))%float;
     random := fun n => if Nat.even n then 0.3%float else 0.9%float;
     choice := fun n l => nth (n mod List.length l) l "" |}.

End TrainingData.

(** ** From the loaded artifacts to the predictor *)

Module Serving.

Section View.
Variable Obj : Type.

(** How [predict] uses the loaded objects: a model through [predict] and
    [predict_proba], the scaler through [transform], the label encoder
    through [inverse_transform]. *)
Variable model_of : Obj -> classifier.
Variable transform_of : Obj -> list pyval -> result (list float).
Variable inverse_transform_of : Obj -> Z -> result string.


End View.





End Serving.

(** * Properties *)

(** ** Dictionaries *)

Lemma sget_sset_same : forall (d : pydict) k v, sget (sset d k v) k = Some v.
Proof.
  unfold sget, sset. induction d as [|[k' v'] d IH]; intros k v; simpl.
  - now rewrite String.eqb_refl.
  - destruct (String.eqb k' k) eqn:E; simpl; rewrite E; auto.
Qed.

Lemma sget_sset_same_gen : forall (V : Type) (d : list (string * V)) k v,
  dict_get String.eqb (dict_set String.eqb d k v) k = Some v.
Proof.
  induction d as [|[k' v'] d IH]; intros k v; simpl.
  - now rewrite String.eqb_refl.
  - destruct (String.eqb k' k) eqn:E; simpl; rewrite E; auto.
Qed.

Lemma sget_sset_other : forall (d : pydict) k k' v,
  k <> k' -> sget (sset d k v) k' = sget d k'.
Proof.
  unfold sget, sset. induction d as [|[k0 v0] d IH]; intros k k' v Hne; simpl.
  - destruct (String.eqb k k') eqn:E; auto.
    apply String.eqb_eq in E. contradiction.
  - destruct (String.eqb k0 k) eqn:E; simpl.
    + apply String.eqb_eq in E; subst k0.
      destruct (String.eqb k k') eqn:E'; auto.
      apply String.eqb_eq in E'. contradiction.
    + destruct (String.eqb k0 k'); auto.
Qed.

Lemma sset_entries : forall (d : pydict) k v k' v',
  In (k', v') (sset d k v) -> (k' = k /\ v' = v) \/ In (k', v') d.
Proof.
  unfold sset. induction d as [|[k0 v0] d IH]; intros k v k' v' H; simpl in *.
  - destruct H as [H|[]]. inversion H; auto.
  - destruct (String.eqb k0 k) eqn:E.
    + apply String.eqb_eq in E; subst k0.
      destruct H as [H|H]; [inversion H; auto | auto].
    + destruct H as [H|H]; [auto|].
      apply IH in H. tauto.
Qed.

Lemma dict_set_not_nil : forall {K V} (eqb : K -> K -> bool) (d : list (K * V)) k v,
  dict_set eqb d k v <> [].
Proof.
  intros K V eqb [|[k' v'] d] k v; simpl; [discriminate|].
  destruct (eqb k' k); discriminate.
Qed.

(** ** The default feature vector *)

Lemma zeros_get : forall (cols : list string) (d : pydict) col,
  In col cols \/ sget d col = Some (PInt 0) ->
  sget (fold_left (fun d col => sset d col (PInt 0)) cols d) col = Some (PInt 0).
Proof.
  induction cols as [|c cols IH]; intros d col H; simpl.
  - destruct H as [[]|H]; exact H.
  - apply IH. destruct H as [[H|H]|H]; auto.
    + subst c. right. apply sget_sset_same.
    + destruct (String.eqb_spec c col) as [->|Hne].
      * right. apply sget_sset_same.
      * right. now rewrite sget_sset_other.
Qed.

Lemma zeros_entries : forall (cols : list string) (d : pydict) k v,
  In (k, v) (fold_left (fun d col => sset d col (PInt 0)) cols d) ->
  (In k cols /\ v = PInt 0) \/ In (k, v) d.
Proof.
  induction cols as [|c cols IH]; intros d k v H; simpl in *; auto.
  apply IH in H. destruct H as [[H1 H2]|H]; auto.
  apply sset_entries in H. destruct H as [[-> ->]|H]; auto.
Qed.

Lemma default_features_get : forall self col,
  In col (feature_columns self) -> sget (default_features self) col = Some (PInt 0).
Proof. intros self col H. apply zeros_get. auto. Qed.

Lemma default_features_entries : forall self k v,
  In (k, v) (default_features self) -> In k (feature_columns self) /\ v = PInt 0.
Proof.
  intros self k v H. apply zeros_entries in H. destruct H as [H|[]]. exact H.
Qed.

(** ** The entropy helper *)

Lemma load_global_math : load_global "math" = Raise (NameError "math").
Proof. reflexivity. Qed.

Lemma char_counts_not_nil : forall (chars : list ascii) (acc : list (ascii * Z)),
  chars <> [] \/ acc <> [] ->
  fold_left (fun char_counts char =>
               dict_set Ascii.eqb char_counts char
                        (dict_get_default Ascii.eqb char_counts char 0 + 1))
            chars acc <> [].
Proof.
  induction chars as [|c chars IH]; intros acc H; simpl.
  - destruct H as [H|H]; [now contradiction H | exact H].
  - apply IH. right. apply dict_set_not_nil.
Qed.

Lemma entropy_loop_raises : forall env counts text_length entropy,
  counts <> [] ->
  entropy_loop env counts text_length entropy = Raise (NameError "math").
Proof.
  intros env [|count rest] text_length entropy H; [now contradiction H|].
  reflexivity.
Qed.

Lemma entropy_nonempty_raises : forall env text,
  text <> "" -> _calculate_entropy env text = Raise (NameError "math").
Proof.
  intros env text Hne. unfold _calculate_entropy.
  destruct (String.eqb_spec text "") as [E|_]; [contradiction|].
  apply entropy_loop_raises.
  unfold dict_values, char_counts_of. intro Hnil.
  apply map_eq_nil in Hnil. revert Hnil. apply char_counts_not_nil.
  left. destruct text; [contradiction|]. discriminate.
Qed.

Lemma extract_features_body_nonempty : forall env url additional,
  url <> "" ->
  (exists e, extract_features_body env url additional = Raise e).
Proof.
  intros env url additional Hne. unfold extract_features_body.
  destruct (urlparse env url) as [parsed|e]; simpl; [|eauto].
  destruct (parse_qs env (query parsed)) as [params|e]; simpl; [|eauto].
  rewrite entropy_nonempty_raises by assumption. simpl. eauto.
Qed.

(** C7 (code defect): on a text of identical characters, where the Shannon
    entropy is 0.0, [_calculate_entropy] raises [NameError] for the name
    [math]: the module never imports it, and the import inside
    [extract_features] is local to that method. *)
Theorem entropy_identical_chars_raises : forall env,
  _calculate_entropy env "aaaa" = Raise (NameError "math")
  /\ exn_str (NameError "math") = "name 'math' is not defined".
Proof. intro env. split; reflexivity. Qed.

(** C9: an exception raised in the [try] block of [extract_features] does not
    leave it: the call returns the dictionary that maps every name of
    [feature_columns] to 0, and nothing else. *)
Theorem extract_features_absorbs_exceptions :
  forall env self url additional e,
    extract_features_body env url additional = Raise e ->
    extract_features env self url additional = default_features self
    /\ (forall col, In col (feature_columns self) ->
          sget (extract_features env self url additional) col = Some (PInt 0))
    /\ (forall k v, In (k, v) (extract_features env self url additional) ->
          In k (feature_columns self) /\ v = PInt 0).
Proof.
  intros env self url additional e H.
  assert (E : extract_features env self url additional = default_features self).
  { unfold extract_features. now rewrite H. }
  rewrite E. split; [reflexivity|]. split.
  - apply default_features_get.
  - apply default_features_entries.
Qed.

Lemma extract_features_absorbs_exceptions_witness :
  extract_features Example.env Example.predictor "http://a.com/x?y=1" None
  = default_features Example.predictor.
Proof.
  apply (extract_features_absorbs_exceptions
           Example.env Example.predictor "http://a.com/x?y=1" None (NameError "math")).
  reflexivity.
Defined.

(** C10: for every non-empty URL the extractor returns the all-zero default
    dictionary, because the entropy helper raises [NameError] for [math] on
    every non-empty text; the empty URL alone can reach the end of the [try]
    block, its entropy being returned before [math] is looked up. *)
Theorem extract_features_nonempty_defaults :
  forall env self url additional,
    url <> "" ->
    _calculate_entropy env url = Raise (NameError "math")
    /\ extract_features env self url additional = default_features self
    /\ (forall col, In col (feature_columns self) ->
          sget (extract_features env self url additional) col = Some (PInt 0))
    /\ _calculate_entropy env "" = Ok 0.0%float
    /\ (forall features u,
          extract_features_body env u additional = Ok features -> u = "")
    /\ (urlparse env "" = Ok {| netloc := ""; path := ""; query := "" |} ->
        parse_qs env "" = Ok [] ->
        extract_features_body env "" None
        = Ok [("url_length", PInt 0); ("domain_length", PInt 0);
              ("path_length", PInt 0); ("query_length", PInt 0);
              ("special_char_count", PInt 0); ("digit_count", PInt 0);
              ("path_depth", PInt 0); ("subdomain_count", PInt 0);
              ("parameter_count", PInt 0); ("encoded_chars_count", PInt 0);
              ("frequency_score", PFloat 0.0); ("suspicious_keyword_count", PInt 0);
              ("entropy", PFloat 0.0)]).
Proof.
  intros env self url additional Hne.
  destruct (extract_features_body_nonempty env url additional Hne) as [e He].
  assert (E : extract_features env self url additional = default_features self).
  { unfold extract_features. now rewrite He. }
  split; [now apply entropy_nonempty_raises|].
  split; [exact E|].
  split; [intros col Hcol; rewrite E; now apply default_features_get|].
  split; [reflexivity|].
  split.
  - intros features u Hu.
    destruct (String.eqb_spec u "") as [->|Hu']; [reflexivity|].
    destruct (extract_features_body_nonempty env u additional Hu') as [e' He'].
    rewrite He' in Hu. discriminate.
  - intros Hparse Hqs. unfold extract_features_body.
    rewrite Hparse. simpl. rewrite Hqs. reflexivity.
Qed.

Lemma extract_features_nonempty_defaults_witness :
  extract_features Example.env Example.predictor
                   "https://example.com/login" None
  = default_features Example.predictor
  /\ extract_features_body Example.env "" None
     = Ok [("url_length", PInt 0); ("domain_length", PInt 0);
           ("path_length", PInt 0); ("query_length", PInt 0);
           ("special_char_count", PInt 0); ("digit_count", PInt 0);
           ("path_depth", PInt 0); ("subdomain_count", PInt 0);
           ("parameter_count", PInt 0); ("encoded_chars_count", PInt 0);
           ("frequency_score", PFloat 0.0); ("suspicious_keyword_count", PInt 0);
           ("entropy", PFloat 0.0)].
Proof.
  assert (Hne : "https://example.com/login" <> "") by discriminate.
  pose proof (extract_features_nonempty_defaults
                Example.env Example.predictor "https://example.com/login" None Hne)
    as (_ & E & _ & _ & _ & Hempty).
  split; [exact E|].
  apply Hempty; reflexivity.
Defined.

(** ** The frequency score *)

Lemma frequency_score_steps : forall url,
  _calculate_frequency_score url = nth (patterns_present url) frequency_steps 0.0%float
  /\ _calculate_frequency_score url
     = fold_left (fun score _ => (score + 0.1)%float)
                 (filter (contains (lower url)) common_patterns) 0.0%float
  /\ (patterns_present url <= 6)%nat.
Proof.
  intro url.
  unfold _calculate_frequency_score, patterns_present, common_patterns.
  cbv [fold_left filter].
  destruct (contains (lower url) ".com"), (contains (lower url) ".org"),
    (contains (lower url) ".net"), (contains (lower url) "www."),
    (contains (lower url) "http"), (contains (lower url) "https");
    (split; [vm_compute; reflexivity | split; [vm_compute; reflexivity | simpl; lia]]).
Qed.

Lemma float_neq : forall x y : float,
  PrimFloat.eqb x x = true -> PrimFloat.eqb x y = false -> x <> y.
Proof. intros x y Hx Hxy E. subst y. congruence. Qed.

(** C8 (as the code has it): the score is the sum of one 0.1 for each of the
    six patterns found in the lower-cased URL, passed through [min(_, 1.0)];
    it lies between 0.0 and 0.6, so the clamp never changes it: it is 0.0
    when no pattern occurs and 0.6 when all six do. *)
Theorem frequency_score_range : forall url,
  _calculate_frequency_score url
  = py_min (fold_left (fun score _ => (score + 0.1)%float)
                      (filter (contains (lower url)) common_patterns) 0.0%float)
           1.0%float
  /\ _calculate_frequency_score url
     = fold_left (fun score _ => (score + 0.1)%float)
                 (filter (contains (lower url)) common_patterns) 0.0%float
  /\ PrimFloat.leb 0.0 (_calculate_frequency_score url) = true
  /\ PrimFloat.leb (_calculate_frequency_score url) 0.6 = true
  /\ PrimFloat.leb (_calculate_frequency_score url) 1.0 = true
  /\ (patterns_present url = 0%nat -> _calculate_frequency_score url = 0.0%float)
  /\ (patterns_present url = 6%nat -> _calculate_frequency_score url = 0.6%float).
Proof.
  intro url.
  destruct (frequency_score_steps url) as (Hnth & Hsum & Hle).
  assert (Hmin : forall k, (k <= 6)%nat ->
            py_min (nth k frequency_steps 0.0%float) 1.0
            = nth k frequency_steps 0.0%float
            /\ PrimFloat.leb 0.0 (nth k frequency_steps 0.0%float) = true
            /\ PrimFloat.leb (nth k frequency_steps 0.0%float) 0.6 = true
            /\ PrimFloat.leb (nth k frequency_steps 0.0%float) 1.0 = true).
  { intros k Hk.
    do 7 (destruct k as [|k]; [vm_compute; repeat split; reflexivity|]). lia. }
  destruct (Hmin _ Hle) as (H1 & H2 & H3 & H4).
  split; [rewrite <- Hsum, Hnth; now rewrite H1|].
  split; [exact Hsum|].
  rewrite Hnth.
  repeat split; try assumption.
  - intros ->. reflexivity.
  - intros ->. reflexivity.
Qed.

(** C8, counterexample: a URL that contains all six patterns (in capitals)
    scores 0.6, not 1.0. *)
Lemma frequency_score_all_six_not_one :
  (forall p, In p common_patterns ->
     contains (lower "HTTPS://WWW.a.COM/b.org/c.net") p = true)
  /\ _calculate_frequency_score "HTTPS://WWW.a.COM/b.org/c.net" = 0.6%float
  /\ _calculate_frequency_score "HTTPS://WWW.a.COM/b.org/c.net" <> 1.0%float.
Proof.
  split.
  - intros p Hp. simpl in Hp.
    repeat (destruct Hp as [<-|Hp]; [vm_compute; reflexivity|]). destruct Hp.
  - split; [vm_compute; reflexivity|].
    apply float_neq; vm_compute; reflexivity.
Qed.

(** ** The risk policy *)

Lemma SFcompare_antisym : forall x y,
  SFcompare y x = option_map CompOpp (SFcompare x y).
Proof.
  intros [sx|sx| |sx mx ex] [sy|sy| |sy my ey]; simpl;
    try reflexivity; try (destruct sx; reflexivity); try (destruct sy; reflexivity);
    try (destruct sx, sy; reflexivity).
  f_equal. rewrite (Z.compare_antisym ex ey).
  destruct sx, sy; try reflexivity;
    destruct (ex ?= ey)%Z; simpl; try reflexivity.
  - f_equal. rewrite Pos.compare_cont_antisym. reflexivity.
  - rewrite Pos.compare_cont_antisym. reflexivity.
Qed.

Lemma SFcompare_defined : forall x y,
  SFcompare x x <> None -> SFcompare y y <> None -> SFcompare x y <> None.
Proof.
  intros [sx|sx| |sx mx ex] [sy|sy| |sy my ey]; simpl; intros Hx Hy; congruence.
Qed.

Lemma SFleb_defined_r : forall x y, SFleb x y = true -> SFcompare y y <> None.
Proof.
  unfold SFleb. intros [sx|sx| |sx mx ex] [sy|sy| |sy my ey]; simpl; congruence.
Qed.

(** On floats, [not (c >= a)] is [c < a] as soon as neither is NaN. *)
Lemma float_lt_of_not_ge : forall a b c : float,
  PrimFloat.leb a a = true ->
  PrimFloat.leb b c = true ->
  PrimFloat.leb a c = false ->
  PrimFloat.ltb c a = true.
Proof.
  intros a b c. rewrite !FloatAxioms.leb_spec, FloatAxioms.ltb_spec.
  intros Ha Hb Hac.
  apply SFleb_defined_r in Ha. apply SFleb_defined_r in Hb.
  pose proof (SFcompare_defined _ _ Ha Hb) as Hdef.
  unfold SFltb. rewrite SFcompare_antisym.
  unfold SFleb in Hac.
  destruct (SFcompare (Prim2SF a) (Prim2SF c)) as [[]|]; simpl; congruence.
Qed.

(** C3: [_determine_risk_level] is a total function of the attack type and
    the confidence that agrees with the policy table on every input, and
    takes the six values the specification lists. *)
Theorem determine_risk_level_policy :
  (forall attack_type confidence,
     _determine_risk_level attack_type confidence
     = risk_policy_table attack_type confidence)
  /\ (forall confidence, _determine_risk_level "benign" confidence = "low")
  /\ _determine_risk_level "benign" 0.99 = "low"
  /\ _determine_risk_level "sqli" 0.95 = "critical"
  /\ _determine_risk_level "sqli" 0.75 = "high"
  /\ _determine_risk_level "sqli" 0.5 = "medium"
  /\ _determine_risk_level "typosquatting" 0.95 = "high"
  /\ _determine_risk_level "typosquatting" 0.5 = "low".
Proof.
  split; [|repeat split; reflexivity].
  intros attack_type c.
  unfold _determine_risk_level, risk_policy_table, float_ge.
  destruct (String.eqb attack_type "benign"); [reflexivity|].
  assert (Hband : PrimFloat.leb 0.9 c = false ->
                  PrimFloat.leb 0.7 c && PrimFloat.ltb c 0.9 = PrimFloat.leb 0.7 c).
  { intro H9. destruct (PrimFloat.leb 0.7 c) eqn:H7; [|reflexivity].
    simpl. apply (float_lt_of_not_ge 0.9%float 0.7%float c); auto. }
  destruct (PrimFloat.leb 0.9 c) eqn:H9.
  - destruct (existsb (String.eqb attack_type) high_risk_attacks); reflexivity.
  - rewrite (Hband eq_refl). reflexivity.
Qed.

(** ** Single prediction *)

Lemma fold_left_snoc_map : forall (A B : Type) (f : A -> B) (l : list A) (acc : list B),
  fold_left (fun acc x => acc ++ [f x]) l acc = acc ++ map f l.
Proof.
  induction l as [|x l IH]; intro acc; simpl.
  - now rewrite app_nil_r.
  - rewrite IH, <- app_assoc. reflexivity.
Qed.

Lemma feature_vector_of_map : forall self features,
  feature_vector_of self features
  = map (fun col => dict_get_default String.eqb features col (PInt 0))
        (feature_columns self).
Proof.
  intros self features. unfold feature_vector_of.
  now rewrite (fold_left_snoc_map _ _
                 (fun col => dict_get_default String.eqb features col (PInt 0))).
Qed.

Lemma all_probabilities_loop_with_scaler : forall self transform probabilities i acc,
  all_probabilities_loop (with_scaler self transform) i probabilities acc
  = all_probabilities_loop self i probabilities acc.
Proof.
  intros self transform. induction probabilities as [|prob rest IH]; intros i acc.
  - reflexivity.
  - simpl. destruct (label_inverse_transform self i); simpl; [apply IH | reflexivity].
Qed.

(** C1: the vector [predict] hands to the scaler lists, in the order of
    [feature_columns], the extractor's value for each name, or 0 where the
    extractor gave none; it is as long as [feature_columns]; and the scaler
    is applied to that vector and to nothing else. *)
Theorem predict_feature_vector_order : forall env self url,
  let features := extract_features env self url None in
  let feature_vector := feature_vector_of self features in
  feature_vector
  = map (fun col => match sget features col with
                    | Some value => value
                    | None => PInt 0
                    end) (feature_columns self)
  /\ List.length feature_vector = List.length (feature_columns self)
  /\ (forall i col, nth_error (feature_columns self) i = Some col ->
        nth_error feature_vector i
        = Some (dict_get_default String.eqb features col (PInt 0)))
  /\ (forall model_type e,
        scaler_transform self feature_vector = Raise e ->
        predict_pipeline env self url model_type = Raise e)
  /\ (forall model_type p,
        predict_pipeline env self url model_type = Ok p ->
        p_features p = features
        /\ exists scaled, scaler_transform self feature_vector = Ok scaled)
  /\ (forall model_type transform,
        transform feature_vector = scaler_transform self feature_vector ->
        predict_pipeline env (with_scaler self transform) url model_type
        = predict_pipeline env self url model_type).
Proof.
  intros env self url features feature_vector.
  assert (Hmap : feature_vector
                 = map (fun col => dict_get_default String.eqb features col (PInt 0))
                       (feature_columns self))
    by apply feature_vector_of_map.
  split; [exact Hmap|].
  split; [rewrite Hmap; apply length_map|].
  split.
  { intros i col Hi. rewrite Hmap, nth_error_map, Hi. reflexivity. }
  split.
  { intros model_type e He. unfold predict_pipeline.
    fold features. fold feature_vector. now rewrite He. }
  split.
  { intros model_type p Hp. unfold predict_pipeline in Hp.
    fold features in Hp. fold feature_vector in Hp.
    destruct (scaler_transform self feature_vector) as [scaled|e];
      simpl in Hp; [|discriminate].
    split; [|eauto].
    destruct (models_getitem self _) as [model|e]; simpl in Hp; [|discriminate].
    destruct (clf_predict model scaled); simpl in Hp; [|discriminate].
    destruct (clf_predict_proba model scaled); simpl in Hp; [|discriminate].
    destruct (label_inverse_transform self _); simpl in Hp; [|discriminate].
    destruct (np_max _); simpl in Hp; [|discriminate].
    destruct (all_probabilities_loop _ _ _ _); simpl in Hp; [|discriminate].
    inversion Hp. reflexivity. }
  intros model_type transform Ht.
  unfold predict_pipeline.
  change (extract_features env (with_scaler self transform) url None) with features.
  change (feature_vector_of (with_scaler self transform) features) with feature_vector.
  fold features. fold feature_vector.
  change (scaler_transform (with_scaler self transform) feature_vector)
    with (transform feature_vector).
  rewrite Ht.
  destruct (scaler_transform self feature_vector) as [scaled|e]; simpl; [|reflexivity].
  unfold models_getitem. simpl.
  destruct (dict_get String.eqb (models self) _) as [model|]; simpl; [|reflexivity].
  destruct (clf_predict model scaled); simpl; [|reflexivity].
  destruct (clf_predict_proba model scaled); simpl; [|reflexivity].
  destruct (label_inverse_transform self _); simpl; [|reflexivity].
  destruct (np_max _); simpl; [|reflexivity].
  rewrite all_probabilities_loop_with_scaler. reflexivity.
Qed.

(** C2: [predict] always returns a dictionary.  When a step of its [try]
    block raises, the dictionary has exactly the fields [url], [error] and
    [timestamp]; otherwise it has exactly the ten fields of a success result.
    A result with an [error] field has none of the prediction fields, and a
    success result has no [error] field. *)
Theorem predict_result_shape : forall env self url model_type t,
  let r := fst (predict env self url model_type t) in
  match predict_pipeline env self url model_type with
  | Raise e =>
      r = [("url", PStr url);
           ("error", PStr (exn_str e));
           ("timestamp", PStr (isoformat env (clock env (t + 1)%nat)))]
      /\ dict_keys r = error_fields
  | Ok p =>
      dict_keys r = success_fields
      /\ sget r "url" = Some (PStr url)
      /\ sget r "error" = None
  end
  /\ (dict_keys r = error_fields \/ dict_keys r = success_fields)
  /\ (sget r "error" <> None ->
      dict_keys r = error_fields
      /\ forall field, In field prediction_fields -> sget r field = None)
  /\ (sget r "error" = None -> dict_keys r = success_fields).
Proof.
  intros env self url model_type t r. subst r. unfold predict.
  destruct (predict_pipeline env self url model_type) as [p|e]; simpl.
  - split; [repeat split; reflexivity|].
    split; [right; reflexivity|].
    split; [intro H; exfalso; apply H; reflexivity | intros _; reflexivity].
  - split; [split; reflexivity|].
    split; [left; reflexivity|].
    split; [|discriminate].
    intros _. split; [reflexivity|].
    intros field Hf. simpl in Hf.
    repeat (destruct Hf as [<-|Hf]; [reflexivity|]). destruct Hf.
Qed.

(** ** Model selection *)

Lemma all_probabilities_loop_ok : forall self probabilities i acc,
  (forall j, i <= j < i + Z.of_nat (List.length probabilities) ->
             exists name, label_inverse_transform self j = Ok name) ->
  exists all_probabilities,
    all_probabilities_loop self i probabilities acc = Ok all_probabilities.
Proof.
  intros self. induction probabilities as [|prob rest IH]; intros i acc H.
  - simpl. eauto.
  - simpl. destruct (H i) as [name Hname].
    { simpl List.length. lia. }
    rewrite Hname. simpl. apply IH.
    intros j Hj. apply H. simpl List.length. lia.
Qed.

Lemma np_max_ok : forall v, v <> [] -> exists m, np_max v = Ok m.
Proof. intros [|x rest] H; [now contradiction H|]. simpl. eauto. Qed.

Lemma pipeline_fallback : forall env self url model_type,
  dict_mem String.eqb (models self) model_type = false ->
  predict_pipeline env self url model_type = predict_pipeline env self url "ensemble".
Proof.
  intros env self url model_type H. unfold predict_pipeline. rewrite H.
  destruct (dict_mem String.eqb (models self) "ensemble"); reflexivity.
Qed.

(** C5: a model name that is no key of [models] is replaced by [ensemble]:
    the call returns what [predict(url, 'ensemble')] returns, and when the
    bundle has an ensemble whose scoring and decoding succeed on the URL, the
    result is a success result that names [ensemble] as the model used. *)
Theorem predict_unknown_model_falls_back : forall env self url model_type t,
  dict_mem String.eqb (models self) model_type = false ->
  predict env self url model_type t = predict env self url "ensemble" t
  /\ (forall ensemble scaled label probabilities attack_type,
        dict_get String.eqb (models self) "ensemble" = Some ensemble ->
        scaler_transform self
          (feature_vector_of self (extract_features env self url None)) = Ok scaled ->
        clf_predict ensemble scaled = Ok label ->
        clf_predict_proba ensemble scaled = Ok probabilities ->
        probabilities <> [] ->
        label_inverse_transform self label = Ok attack_type ->
        (forall i, 0 <= i < Z.of_nat (List.length probabilities) ->
                   exists name, label_inverse_transform self i = Ok name) ->
        exists p,
          predict_pipeline env self url model_type = Ok p
          /\ p_model_used p = "ensemble"
          /\ p_attack_type p = attack_type
          /\ dict_keys (fst (predict env self url model_type t)) = success_fields
          /\ sget (fst (predict env self url model_type t)) "error" = None
          /\ sget (fst (predict env self url model_type t)) "model_used"
             = Some (PStr "ensemble")).
Proof.
  intros env self url model_type t Hmem.
  pose proof (pipeline_fallback env self url model_type Hmem) as Hpipe.
  split.
  { unfold predict. rewrite Hpipe. reflexivity. }
  intros ensemble scaled label probabilities attack_type
         Hens Hscale Hpred Hproba Hne Hlabel Hall.
  destruct (np_max_ok probabilities Hne) as [confidence Hmax].
  destruct (all_probabilities_loop_ok self probabilities 0 [] Hall) as [all Hloop].
  assert (Hp : exists p, predict_pipeline env self url model_type = Ok p
                         /\ p_model_used p = "ensemble"
                         /\ p_attack_type p = attack_type).
  { unfold predict_pipeline. rewrite Hscale, Hmem. simpl.
    unfold models_getitem. rewrite Hens. simpl.
    rewrite Hpred. simpl. rewrite Hproba. simpl. rewrite Hlabel. simpl.
    rewrite Hmax. simpl. rewrite Hloop. simpl.
    eexists. split; [reflexivity|]. split; reflexivity. }
  destruct Hp as (p & Hp & Hused & Hattack).
  exists p. split; [exact Hp|]. split; [exact Hused|]. split; [exact Hattack|].
  unfold predict. rewrite Hp. simpl. rewrite Hused.
  repeat split; reflexivity.
Qed.

Lemma predict_unknown_model_falls_back_witness :
  predict Example.env Example.predictor "https://example.com/login" "gradient_boost" 0
  = predict Example.env Example.predictor "https://example.com/login" "ensemble" 0
  /\ sget (fst (predict Example.env Example.predictor
                        "https://example.com/login" "gradient_boost" 0)) "error" = None.
Proof.
  assert (Hmem : dict_mem String.eqb (models Example.predictor) "gradient_boost" = false)
    by reflexivity.
  pose proof (predict_unknown_model_falls_back
                Example.env Example.predictor "https://example.com/login"
                "gradient_boost" 0%nat Hmem) as [Heq Hsuccess].
  split; [exact Heq|].
  destruct (Hsuccess (Example.constant_classifier 2 [0.1; 0.2; 0.7]%float)
                     (map (fun _ => 0.0%float) Training.feature_columns)
                     2 [0.1; 0.2; 0.7]%float "xss")
    as (p & _ & _ & _ & _ & Herr & _).
  - reflexivity.
  - vm_compute. reflexivity.
  - reflexivity.
  - reflexivity.
  - discriminate.
  - reflexivity.
  - intros i Hi. simpl in Hi.
    assert (Hcases : i = 0 \/ i = 1 \/ i = 2) by lia.
    destruct Hcases as [->|[->| ->]]; eexists; reflexivity.
  - exact Herr.
Defined.

(** ** Batch prediction *)

Lemma batch_fold_acc : forall env self model_type urls acc t,
  fold_left (fun (acc : list pydict * nat) url =>
               let (result, t') := predict env self url model_type (snd acc) in
               (fst acc ++ [result], t'))
            urls (acc, t)
  = (acc ++ fst (batch_predict env self urls model_type t),
     snd (batch_predict env self urls model_type t)).
Proof.
  intros env self model_type. unfold batch_predict.
  induction urls as [|url urls IH]; intros acc t; simpl.
  - now rewrite app_nil_r.
  - destruct (predict env self url model_type t) as [result t'] eqn:E. simpl.
    rewrite IH. rewrite (IH [result] t'). simpl.
    now rewrite <- app_assoc.
Qed.

Lemma batch_predict_cons : forall env self model_type url urls t,
  batch_predict env self (url :: urls) model_type t
  = (fst (predict env self url model_type t)
       :: fst (batch_predict env self urls model_type
                             (snd (predict env self url model_type t))),
     snd (batch_predict env self urls model_type
                        (snd (predict env self url model_type t)))).
Proof.
  intros env self model_type url urls t.
  unfold batch_predict at 1. simpl.
  destruct (predict env self url model_type t) as [result t'] eqn:E. simpl.
  apply batch_fold_acc.
Qed.

Lemma untimed_predict_clock_free : forall env self url model_type t t0,
  untimed (fst (predict env self url model_type t))
  = untimed (fst (predict env self url model_type t0)).
Proof.
  intros env self url model_type t t0. unfold predict.
  destruct (predict_pipeline env self url model_type); reflexivity.
Qed.

Lemma batch_predict_length : forall env self model_type urls t,
  List.length (fst (batch_predict env self urls model_type t)) = List.length urls.
Proof.
  intros env self model_type. induction urls as [|url urls IH]; intro t.
  - reflexivity.
  - rewrite batch_predict_cons. simpl. now rewrite IH.
Qed.

Lemma batch_predict_nth : forall env self model_type urls t i url,
  nth_error urls i = Some url ->
  nth_error (fst (batch_predict env self urls model_type t)) i
  = Some (fst (predict env self url model_type
                       (snd (batch_predict env self (firstn i urls) model_type t)))).
Proof.
  intros env self model_type. induction urls as [|u urls IH]; intros t i url Hi.
  - destruct i; discriminate.
  - rewrite batch_predict_cons. destruct i as [|i]; simpl in *.
    + inversion Hi. reflexivity.
    + rewrite batch_predict_cons. simpl. now apply IH.
Qed.

Lemma batch_predict_untimed : forall env self model_type urls t t0,
  map untimed (fst (batch_predict env self urls model_type t))
  = map (fun url => untimed (fst (predict env self url model_type t0))) urls.
Proof.
  intros env self model_type. induction urls as [|u urls IH]; intros t t0.
  - reflexivity.
  - rewrite batch_predict_cons. simpl. rewrite (IH _ t0).
    now rewrite (untimed_predict_clock_free env self u model_type t t0).
Qed.

(** C6: [batch_predict] returns one result per URL, in the order of the
    input: the result at position [i] is [predict] of the [i]-th URL, run at
    the clock state the earlier calls have left.  Apart from the two fields
    read from the clock, each result depends on its own URL only: when the
    prediction of one URL raises, its position holds the error result, and
    the other positions hold what the batch without that URL holds. *)
Theorem batch_predict_order_and_independence : forall env self urls model_type t,
  let results := fst (batch_predict env self urls model_type t) in
  List.length results = List.length urls
  /\ (forall i url, nth_error urls i = Some url ->
        nth_error results i
        = Some (fst (predict env self url model_type
                             (snd (batch_predict env self (firstn i urls) model_type t)))))
  /\ (forall t0,
        map untimed results
        = map (fun url => untimed (fst (predict env self url model_type t0))) urls)
  /\ (forall before bad after e,
        urls = before ++ bad :: after ->
        predict_pipeline env self bad model_type = Raise e ->
        (exists timestamp,
           nth_error results (List.length before)
           = Some [("url", PStr bad); ("error", PStr (exn_str e));
                   ("timestamp", PStr timestamp)])
        /\ forall t',
             firstn (List.length before) (map untimed results)
               ++ skipn (S (List.length before)) (map untimed results)
             = map untimed
                   (fst (batch_predict env self (before ++ after) model_type t'))).
Proof.
  intros env self urls model_type t results. subst results.
  split; [apply batch_predict_length|].
  split; [intros i url; apply batch_predict_nth|].
  split; [intro t0; apply batch_predict_untimed|].
  intros before bad after e -> Hraise. split.
  - assert (Hnth : nth_error (before ++ bad :: after) (List.length before) = Some bad).
    { rewrite nth_error_app2 by lia. now rewrite Nat.sub_diag. }
    rewrite (batch_predict_nth _ _ _ _ _ _ _ Hnth).
    unfold predict. rewrite Hraise. simpl. eexists. reflexivity.
  - intro t'.
    rewrite (batch_predict_untimed env self model_type (before ++ bad :: after) t 0%nat).
    rewrite (batch_predict_untimed env self model_type (before ++ after) t' 0%nat).
    rewrite !map_app. simpl map.
    set (g := fun url => untimed (fst (predict env self url model_type 0%nat))).
    assert (Hlen : List.length before = List.length (map g before))
      by now rewrite length_map.
    rewrite Hlen.
    rewrite firstn_app, firstn_all, Nat.sub_diag. simpl firstn. rewrite app_nil_r.
    rewrite skipn_app.
    rewrite (skipn_all2 (map g before)) by lia.
    replace (S (List.length (map g before)) - List.length (map g before))%nat
      with 1%nat by lia.
    reflexivity.
Qed.

Lemma batch_predict_order_and_independence_witness :
  let results :=
    fst (batch_predict Example.env Example.predictor_without_ensemble
                       ["https://example.com/login";
                        "https://site.com/admin/login.php?user=admin&pass=123";
                        "https://normal-site.com/about-us"]
                       "neural_net" 0) in
  List.length results = 3%nat
  /\ exists timestamp,
       nth_error results 1
       = Some [("url", PStr "https://site.com/admin/login.php?user=admin&pass=123");
               ("error", PStr "'ensemble'");
               ("timestamp", PStr timestamp)].
Proof.
  pose proof (batch_predict_order_and_independence
                Example.env Example.predictor_without_ensemble
                ["https://example.com/login";
                 "https://site.com/admin/login.php?user=admin&pass=123";
                 "https://normal-site.com/about-us"]
                "neural_net" 0%nat) as (Hlen & _ & _ & Hbad).
  split; [exact Hlen|].
  destruct (Hbad ["https://example.com/login"]
                 "https://site.com/admin/login.php?user=admin&pass=123"
                 ["https://normal-site.com/about-us"]
                 (KeyError "ensemble")) as [Herr _].
  - reflexivity.
  - vm_compute. reflexivity.
  - exact Herr.
Defined.

(** ** The soft-voting ensemble *)

Lemma argmax_from_spec : forall (v pre : list Q) (best_i : nat) (best : Q),
  nth_error pre best_i = Some best ->
  (forall j q, nth_error pre j = Some q -> (q <= best)%Q) ->
  (forall j q, nth_error pre j = Some q -> (j < best_i)%nat -> (q < best)%Q) ->
  exists top,
    nth_error (pre ++ v) (Training.argmax_from best_i best (List.length pre) v) = Some top
    /\ (forall j q, nth_error (pre ++ v) j = Some q -> (q <= top)%Q)
    /\ (forall j q, nth_error (pre ++ v) j = Some q ->
          (j < Training.argmax_from best_i best (List.length pre) v)%nat -> (q < top)%Q).
Proof.
  induction v as [|x v IH]; intros pre best_i best Hbest Hle Hlt.
  - simpl. rewrite app_nil_r. exists best. auto.
  - simpl Training.argmax_from.
    assert (Hsplit : pre ++ x :: v = (pre ++ [x]) ++ v)
      by now rewrite <- app_assoc.
    assert (Hlen : S (List.length pre) = List.length (pre ++ [x]))
      by (rewrite length_app; simpl; lia).
    assert (Hin : (best_i < List.length pre)%nat).
    { apply nth_error_Some. congruence. }
    assert (Hcases : forall j q, nth_error (pre ++ [x]) j = Some q ->
                       (nth_error pre j = Some q /\ (j < List.length pre)%nat)
                       \/ (j = List.length pre /\ q = x)).
    { intros j q Hj. destruct (Nat.lt_ge_cases j (List.length pre)) as [Hj'|Hj'].
      - left. rewrite nth_error_app1 in Hj by assumption. auto.
      - right. rewrite nth_error_app2 in Hj by assumption.
        destruct (j - List.length pre)%nat as [|k] eqn:Ek; simpl in Hj.
        + inversion Hj. split; [lia | reflexivity].
        + destruct k; discriminate. }
    rewrite Hsplit, Hlen.
    destruct (Qle_bool x best) eqn:Ex.
    + apply Qle_bool_iff in Ex. apply IH.
      * rewrite nth_error_app1 by assumption. exact Hbest.
      * intros j q Hj. destruct (Hcases j q Hj) as [[Hq _]|[_ ->]]; eauto.
      * intros j q Hj Hjb. destruct (Hcases j q Hj) as [[Hq _]|[-> _]]; [eauto | lia].
    + assert (Hx : (best < x)%Q).
      { apply Qnot_le_lt. intro H. apply Qle_bool_iff in H. congruence. }
      apply IH.
      * rewrite nth_error_app2 by lia. now rewrite Nat.sub_diag.
      * intros j q Hj. destruct (Hcases j q Hj) as [[Hq _]|[_ ->]].
        -- apply Qlt_le_weak. eapply Qle_lt_trans; eauto.
        -- apply Qle_refl.
      * intros j q Hj Hjb. destruct (Hcases j q Hj) as [[Hq _]|[-> _]]; [|lia].
        eapply Qle_lt_trans; eauto.
Qed.

Lemma argmax_spec : forall v : list Q,
  v <> [] ->
  exists top,
    nth_error v (Training.argmax v) = Some top
    /\ (forall j q, nth_error v j = Some q -> (q <= top)%Q)
    /\ (forall j q, nth_error v j = Some q -> (j < Training.argmax v)%nat -> (q < top)%Q).
Proof.
  intros [|x v] H; [now contradiction H|].
  unfold Training.argmax.
  apply (argmax_from_spec v [x] 0%nat x).
  - reflexivity.
  - intros [|[|j]] q Hq; simpl in Hq; try discriminate.
    inversion Hq. apply Qle_refl.
  - intros j q _ Hj. lia.
Qed.

Lemma nth_error_pairwise : forall (f : Q * Q -> Q) (u v : list Q) k a b,
  nth_error u k = Some a -> nth_error v k = Some b ->
  nth_error (map f (combine u v)) k = Some (f (a, b)).
Proof.
  intros f. induction u as [|x u IH]; intros v k a b Ha Hb.
  - destruct k; discriminate.
  - destruct v as [|y v]; [destruct k; discriminate|].
    destruct k as [|k]; simpl in *.
    + inversion Ha. inversion Hb. reflexivity.
    + now apply IH.
Qed.

(** C4: when both members are present, the targets pass the checks of [fit]
    and both copies fit, the ensemble that [create_ensemble] stores under
    [ensemble] returns, per class, the mean of the distributions of its two
    members, the fitted copies of [random_forest] and [xgboost], each counted
    once; its predicted class holds the largest averaged probability and is
    the lowest such index.  On the distributions [0.2, 0.8] and [0.6, 0.4]
    it returns [0.4, 0.6] and predicts class 1. *)
Theorem ensemble_soft_voting :
  (forall (Features Labels : Type) (check_targets : Labels -> result unit)
          (refit : Training.model -> Features -> Labels -> result Training.model)
          models X y rf xgb rf_fitted xgb_fitted,
     dict_get String.eqb models "random_forest" = Some rf ->
     dict_get String.eqb models "xgboost" = Some xgb ->
     check_targets y = Ok tt ->
     refit rf X y = Ok rf_fitted ->
     refit xgb X y = Ok xgb_fitted ->
     exists ensemble models',
       Training.create_ensemble check_targets refit models X y
       = Ok (ensemble, models')
       /\ dict_get String.eqb models' "ensemble" = Some ensemble
       /\ forall x,
            Training.predict_proba ensemble x
            = map (fun ab => (fst ab + snd ab) / 2)%Q
                  (combine (Training.predict_proba rf_fitted x)
                           (Training.predict_proba xgb_fitted x))
            /\ (forall k a b,
                  nth_error (Training.predict_proba rf_fitted x) k = Some a ->
                  nth_error (Training.predict_proba xgb_fitted x) k = Some b ->
                  nth_error (Training.predict_proba ensemble x) k
                  = Some ((a + b) / 2)%Q)
            /\ Training.predict ensemble x
               = Training.argmax (Training.predict_proba ensemble x)
            /\ (Training.predict_proba ensemble x <> [] ->
                exists top,
                  nth_error (Training.predict_proba ensemble x)
                            (Training.predict ensemble x) = Some top
                  /\ (forall j q,
                        nth_error (Training.predict_proba ensemble x) j = Some q ->
                        (q <= top)%Q)
                  /\ (forall j q,
                        nth_error (Training.predict_proba ensemble x) j = Some q ->
                        (j < Training.predict ensemble x)%nat -> (q < top)%Q)))
  /\ (exists ensemble models',
        Training.create_ensemble Training.example_check Training.example_refit
                                 Training.example_models tt tt
        = Ok (ensemble, models')
        /\ forall x,
             Forall2 Qeq (Training.predict_proba ensemble x) [0.4; 0.6]%Q
             /\ map Qred (Training.predict_proba ensemble x) = [2 # 5; 3 # 5]%Q
             /\ Training.predict ensemble x = 1%nat).
Proof.
  split.
  - intros Features Labels check_targets refit models X y rf xgb rf_fitted xgb_fitted
           Hrf Hxgb Hcheck Hfit_rf Hfit_xgb.
    unfold Training.create_ensemble, Training.models_getitem.
    rewrite Hrf, Hxgb. simpl.
    unfold Training.VotingClassifier_fit. rewrite Hcheck. simpl.
    rewrite Hfit_rf. simpl. rewrite Hfit_xgb. simpl.
    eexists. eexists. split; [reflexivity|].
    split; [apply (sget_sset_same_gen _ models "ensemble")|].
    intro x.
    assert (Hproba :
              Training.predict_proba
                (Training.VotingClassifier_soft
                   [("rf", rf_fitted); ("xgb", xgb_fitted)]) x
              = map (fun ab => (fst ab + snd ab) / 2)%Q
                    (combine (Training.predict_proba rf_fitted x)
                             (Training.predict_proba xgb_fitted x))).
    { simpl. unfold Training.vadd. rewrite map_map. reflexivity. }
    split; [exact Hproba|].
    split.
    { intros k a b Ha Hb. rewrite Hproba.
      now rewrite (nth_error_pairwise _ _ _ _ _ _ Ha Hb). }
    split; [reflexivity|].
    intro Hne. change (Training.predict (Training.VotingClassifier_soft
                                           [("rf", rf_fitted); ("xgb", xgb_fitted)]) x)
      with (Training.argmax (Training.predict_proba
                               (Training.VotingClassifier_soft
                                  [("rf", rf_fitted); ("xgb", xgb_fitted)]) x)).
    now apply argmax_spec.
  - eexists. eexists. split; [reflexivity|].
    intro x. split; [|split; reflexivity].
    simpl. repeat constructor; reflexivity.
Qed.

Lemma ensemble_soft_voting_witness :
  exists ensemble models',
    Training.create_ensemble Training.example_check Training.example_refit
                                 Training.example_models tt tt
    = Ok (ensemble, models')
    /\ dict_get String.eqb models' "ensemble" = Some ensemble
    /\ nth_error (Training.predict_proba ensemble []) 1
       = Some ((0.8 + 0.4) / 2)%Q.
Proof.
  destruct (proj1 ensemble_soft_voting unit unit
                  Training.example_check Training.example_refit
                  Training.example_models tt tt
                  (Training.constant_model [0.2; 0.8]%Q)
                  (Training.constant_model [0.6; 0.4]%Q)
                  (Training.constant_model [0.2; 0.8]%Q)
                  (Training.constant_model [0.6; 0.4]%Q)
                  eq_refl eq_refl eq_refl eq_refl eq_refl)
    as (ensemble & models' & Hcreate & Hget & Hall).
  exists ensemble, models'.
  split; [exact Hcreate|]. split; [exact Hget|].
  destruct (Hall []) as (_ & Hclass & _).
  apply Hclass; reflexivity.
Defined.

(** * Further properties of the code *)

(** ** Substring tests *)

Lemma prefix_app : forall p s t,
  String.prefix p s = true -> String.prefix p (s ++ t) = true.
Proof.
  induction p as [|a p IH]; intros s t H.
  { destruct (s ++ t)%string; reflexivity. }
  destruct s as [|b s]; simpl in *; [discriminate|].
  destruct (ascii_dec a b); [now apply IH | discriminate].
Qed.

Lemma contains_app_l : forall s t p,
  contains s p = true -> contains (s ++ t) p = true.
Proof.
  induction s as [|c s IH]; intros t p H.
  - simpl in H. rewrite orb_false_r in H.
    destruct p; [|discriminate]. destruct t; reflexivity.
  - simpl in *. apply orb_true_iff in H. apply orb_true_iff.
    destruct H as [H|H]; [left | right; now apply IH].
    now apply (prefix_app p (String c s) t).
Qed.

Lemma contains_app_r : forall a s p,
  contains s p = true -> contains (a ++ s) p = true.
Proof.
  induction a as [|c a IH]; intros s p H; [exact H|].
  simpl. apply orb_true_iff. right. now apply IH.
Qed.

Lemma contains_embedded : forall pre s post p,
  contains s p = true -> contains (pre ++ s ++ post) p = true.
Proof. intros. apply contains_app_r. now apply contains_app_l. Qed.

Lemma lower_app : forall a b, lower (a ++ b) = (lower a ++ lower b)%string.
Proof.
  induction a as [|c a IH]; intro b; simpl; [reflexivity | now rewrite IH].
Qed.

Lemma count_fold_filter : forall (f : string -> bool) (l : list string) (c0 : Z),
  fold_left (fun count keyword => if f keyword then count + 1 else count) l c0
  = c0 + Z.of_nat (List.length (filter f l)).
Proof.
  intros f. induction l as [|k l IH]; intro c0; simpl.
  - lia.
  - rewrite IH. destruct (f k); simpl List.length; lia.
Qed.

Lemma filter_length_le : forall (A : Type) (f : A -> bool) (l : list A),
  (List.length (filter f l) <= List.length l)%nat.
Proof.
  intros A f. induction l as [|x l IH]; simpl; [lia|].
  destruct (f x); simpl; lia.
Qed.

Lemma filter_length_mono : forall (A : Type) (f g : A -> bool) (l : list A),
  (forall x, f x = true -> g x = true) ->
  (List.length (filter f l) <= List.length (filter g l))%nat.
Proof.
  intros A f g l H. induction l as [|x l IH]; simpl; [lia|].
  destruct (f x) eqn:Ef.
  - rewrite (H x Ef). simpl. lia.
  - destruct (g x); simpl; lia.
Qed.

(** ** Keyword and pattern counting *)

(** X1: [_count_suspicious_keywords] counts keywords, not occurrences: its
    result is the number of the 29 keywords that occur in the lower-cased
    URL, so it lies between 0 and 29 however often a keyword is repeated. *)
Theorem suspicious_keyword_count_presence : forall url,
  _count_suspicious_keywords url
  = Z.of_nat (List.length (filter (contains (lower url)) suspicious_keywords))
  /\ 0 <= _count_suspicious_keywords url <= 29
  /\ (forall keyword,
        In keyword suspicious_keywords ->
        contains (lower url) keyword = true ->
        1 <= _count_suspicious_keywords url)
  /\ ((forall keyword, In keyword suspicious_keywords ->
                       contains (lower url) keyword = false) ->
      _count_suspicious_keywords url = 0).
Proof.
  intro url.
  assert (E : _count_suspicious_keywords url
              = Z.of_nat (List.length (filter (contains (lower url)) suspicious_keywords))).
  { unfold _count_suspicious_keywords. now rewrite count_fold_filter. }
  split; [exact E|]. split.
  - rewrite E.
    pose proof (filter_length_le _ (contains (lower url)) suspicious_keywords) as H.
    change (List.length suspicious_keywords) with 29%nat in H. lia.
  - split.
    + intros keyword Hin Hc. rewrite E.
      assert (Hf : In keyword (filter (contains (lower url)) suspicious_keywords))
        by (apply filter_In; auto).
      destruct (filter (contains (lower url)) suspicious_keywords); [destruct Hf|].
      simpl List.length. lia.
    + intro Hnone. rewrite E.
      destruct (filter (contains (lower url)) suspicious_keywords) as [|k l] eqn:Ef;
        [reflexivity|].
      assert (Hk : In k (filter (contains (lower url)) suspicious_keywords))
        by (rewrite Ef; left; reflexivity).
      apply filter_In in Hk. destruct Hk as [Hin Hc].
      rewrite (Hnone k Hin) in Hc. discriminate.
Qed.

Lemma frequency_steps_monotone : forall i j,
  (i <= j)%nat -> (j <= 6)%nat ->
  PrimFloat.leb (nth i frequency_steps 0.0%float) (nth j frequency_steps 0.0%float) = true.
Proof.
  intros i j Hij Hj.
  do 7 (destruct j as [|j];
        [do 7 (destruct i as [|i]; [first [vm_compute; reflexivity | lia]|]); lia|]).
  lia.
Qed.

(** X2: text added before or after a URL never lowers its keyword count,
    the number of common patterns found in it, or its frequency score. *)
Theorem counts_monotone_under_extension : forall pre url post,
  _count_suspicious_keywords url <= _count_suspicious_keywords (pre ++ url ++ post)
  /\ (patterns_present url <= patterns_present (pre ++ url ++ post))%nat
  /\ PrimFloat.leb (_calculate_frequency_score url)
                   (_calculate_frequency_score (pre ++ url ++ post)) = true.
Proof.
  intros pre url post.
  assert (Hsub : forall p, contains (lower url) p = true ->
                           contains (lower (pre ++ url ++ post)) p = true).
  { intros p H. rewrite !lower_app. now apply contains_embedded. }
  split.
  - unfold _count_suspicious_keywords. rewrite !count_fold_filter.
    pose proof (filter_length_mono _ _ _ suspicious_keywords Hsub). lia.
  - assert (Hle : (patterns_present url <= patterns_present (pre ++ url ++ post))%nat).
    { unfold patterns_present. now apply filter_length_mono. }
    split; [exact Hle|].
    destruct (frequency_score_steps url) as (E1 & _ & _).
    destruct (frequency_score_steps (pre ++ url ++ post)) as (E2 & _ & H6).
    rewrite E1, E2. now apply frequency_steps_monotone.
Qed.

(** ** More on the risk policy *)

Lemma SFleb_trans : forall x y z,
  SFleb x y = true -> SFleb y z = true -> SFleb x z = true.
Proof.
  unfold SFleb.
  intros [sx|sx| |sx mx ex] [sy|sy| |sy my ey] [sz|sz| |sz mz ez]; simpl;
    try discriminate; try reflexivity;
    try (destruct sx; simpl; try discriminate; try reflexivity;
         destruct sy; simpl; try discriminate; try reflexivity;
         destruct sz; simpl; try discriminate; try reflexivity; fail);
    try (destruct sx, sy; simpl; try discriminate; try reflexivity; fail);
    try (destruct sx, sz; simpl; try discriminate; try reflexivity; fail);
    try (destruct sy, sz; simpl; try discriminate; try reflexivity; fail).
  all: destruct sx, sy, sz; simpl; try discriminate; try reflexivity.
  all: try (intros _ _; destruct (ex ?= ez)%Z; try reflexivity;
            destruct (Pos.compare_cont Eq mx mz); reflexivity).
  all: change (PosDef.Pos.compare_cont Eq mx my) with (Pos.compare mx my);
    change (PosDef.Pos.compare_cont Eq my mz) with (Pos.compare my mz);
    change (PosDef.Pos.compare_cont Eq mx mz) with (Pos.compare mx mz);
    destruct (Z.compare_spec ex ey), (Z.compare_spec ey ez), (Z.compare_spec ex ez);
    try lia; simpl; try discriminate; try reflexivity;
    destruct (Pos.compare_spec mx my), (Pos.compare_spec my mz), (Pos.compare_spec mx mz);
    try lia; simpl; try discriminate; reflexivity.
Qed.

Lemma float_leb_trans : forall a b c : float,
  PrimFloat.leb a b = true -> PrimFloat.leb b c = true -> PrimFloat.leb a c = true.
Proof.
  intros a b c. rewrite !FloatAxioms.leb_spec. apply SFleb_trans.
Qed.

Lemma float_nan_not_ge : forall a c : float,
  PrimFloat.is_nan c = true -> PrimFloat.leb a c = false.
Proof.
  intros a c. unfold PrimFloat.is_nan.
  rewrite FloatAxioms.eqb_spec, FloatAxioms.leb_spec.
  unfold SFeqb, SFleb.
  destruct (Prim2SF c) as [s|s| |s m e]; simpl.
  - discriminate.
  - destruct s; discriminate.
  - intros _. destruct (Prim2SF a); reflexivity.
  - destruct s; rewrite Z.compare_refl;
      change (PosDef.Pos.compare_cont Eq m m) with (Pos.compare m m);
      rewrite Pos.compare_refl; discriminate.
Qed.


(** X3: [_determine_risk_level] returns one of the four levels; it returns
    [critical] exactly for a high-risk attack type with confidence at least
    0.9; a NaN confidence gets the lowest level of its row; and at equal
    confidence a high-risk type never ranks below any other type. *)
Theorem risk_level_range : forall attack_type confidence,
  In (_determine_risk_level attack_type confidence) risk_levels
  /\ (_determine_risk_level attack_type confidence = "critical"
      <-> existsb (String.eqb attack_type) high_risk_attacks = true
          /\ PrimFloat.leb 0.9 confidence = true)
  /\ (PrimFloat.is_nan confidence = true ->
      _determine_risk_level attack_type confidence
      = if existsb (String.eqb attack_type) high_risk_attacks then "medium" else "low")
  /\ (forall other,
        existsb (String.eqb attack_type) high_risk_attacks = true ->
        (risk_rank (_determine_risk_level other confidence)
         <= risk_rank (_determine_risk_level attack_type confidence))%nat).
Proof.
  intros attack_type c.
  assert (Hbenign : String.eqb attack_type "benign" = true ->
                    existsb (String.eqb attack_type) high_risk_attacks = false).
  { intro H. apply String.eqb_eq in H. subst. reflexivity. }
  split; [|split; [|split]].
  - unfold _determine_risk_level, float_ge, risk_levels.
    destruct (String.eqb attack_type "benign"),
      (existsb (String.eqb attack_type) high_risk_attacks),
      (PrimFloat.leb 0.9 c), (PrimFloat.leb 0.7 c); simpl; tauto.
  - unfold _determine_risk_level, float_ge.
    destruct (String.eqb attack_type "benign") eqn:Eb.
    + rewrite (Hbenign eq_refl). split; [discriminate | intros [H _]; discriminate].
    + destruct (existsb (String.eqb attack_type) high_risk_attacks),
        (PrimFloat.leb 0.9 c), (PrimFloat.leb 0.7 c);
        split; try discriminate; try (intros [H1 H2]; discriminate); auto.
  - intro Hnan. unfold _determine_risk_level, float_ge.
    rewrite !(float_nan_not_ge _ c Hnan).
    destruct (String.eqb attack_type "benign") eqn:Eb; [|reflexivity].
    now rewrite (Hbenign eq_refl).
  - intros other Hhigh. unfold _determine_risk_level, float_ge.
    destruct (String.eqb attack_type "benign") eqn:Eb.
    { rewrite (Hbenign eq_refl) in Hhigh. discriminate. }
    rewrite Hhigh.
    destruct (String.eqb other "benign"),
      (existsb (String.eqb other) high_risk_attacks),
      (PrimFloat.leb 0.9 c), (PrimFloat.leb 0.7 c); vm_compute; lia.
Qed.

(** X4: a larger confidence never gives a lower risk level for the same
    attack type. *)
Theorem risk_level_monotone : forall attack_type c1 c2,
  PrimFloat.leb c1 c2 = true ->
  (risk_rank (_determine_risk_level attack_type c1)
   <= risk_rank (_determine_risk_level attack_type c2))%nat.
Proof.
  intros attack_type c1 c2 H.
  assert (H9 : PrimFloat.leb 0.9 c1 = true -> PrimFloat.leb 0.9 c2 = true)
    by (intro H1; exact (float_leb_trans _ _ _ H1 H)).
  assert (H7 : PrimFloat.leb 0.7 c1 = true -> PrimFloat.leb 0.7 c2 = true)
    by (intro H1; exact (float_leb_trans _ _ _ H1 H)).
  unfold _determine_risk_level, float_ge.
  destruct (String.eqb attack_type "benign"); [vm_compute; lia|].
  destruct (PrimFloat.leb 0.9 c1) eqn:E91.
  - rewrite (H9 eq_refl).
    destruct (existsb (String.eqb attack_type) high_risk_attacks); vm_compute; lia.
  - destruct (PrimFloat.leb 0.7 c1) eqn:E71.
    + rewrite (H7 eq_refl).
      destruct (existsb (String.eqb attack_type) high_risk_attacks),
        (PrimFloat.leb 0.9 c2); vm_compute; lia.
    + destruct (existsb (String.eqb attack_type) high_risk_attacks),
        (PrimFloat.leb 0.9 c2), (PrimFloat.leb 0.7 c2); vm_compute; lia.
Qed.

Lemma risk_level_monotone_witness :
  (risk_rank (_determine_risk_level "sqli" 0.5)
   <= risk_rank (_determine_risk_level "sqli" 0.95))%nat.
Proof.
  apply (risk_level_monotone "sqli" 0.5%float 0.95%float).
  vm_compute. reflexivity.
Defined.

(** ** More on single predictions *)

Lemma extract_features_nonempty : forall env self url additional,
  url <> "" -> extract_features env self url additional = default_features self.
Proof.
  intros env self url additional Hne. unfold extract_features.
  destruct (extract_features_body_nonempty env url additional Hne) as [e He].
  now rewrite He.
Qed.

Lemma map_constant_repeat : forall (A B : Type) (f : A -> B) (b : B) (l : list A),
  (forall x, In x l -> f x = b) -> map f l = repeat b (List.length l).
Proof.
  intros A B f b. induction l as [|x l IH]; intro H; simpl; [reflexivity|].
  rewrite (H x) by (left; reflexivity). f_equal. apply IH.
  intros y Hy. apply H. now right.
Qed.

Lemma default_feature_vector : forall self,
  feature_vector_of self (default_features self)
  = repeat (PInt 0) (List.length (feature_columns self)).
Proof.
  intro self. rewrite feature_vector_of_map. apply map_constant_repeat.
  intros col Hcol. unfold dict_get_default.
  change (dict_get String.eqb (default_features self) col)
    with (sget (default_features self) col).
  now rewrite default_features_get.
Qed.

(** X5: [predict] cannot tell two non-empty URLs apart.  The vector it scales
    is all zeros, one per feature column, whatever the URL; the attack type,
    confidence, risk level, probabilities and features it computes are the
    same for both; and the two results differ in their [url] field and the
    clock fields only. *)
Theorem predict_blind_to_url : forall env self url1 url2 model_type,
  url1 <> "" -> url2 <> "" ->
  feature_vector_of self (extract_features env self url1 None)
  = repeat (PInt 0) (List.length (feature_columns self))
  /\ predict_pipeline env self url1 model_type
     = predict_pipeline env self url2 model_type
  /\ forall t1 t2,
       untimed (fst (predict env self url1 model_type t1))
       = sset (untimed (fst (predict env self url2 model_type t2))) "url" (PStr url1).
Proof.
  intros env self url1 url2 model_type H1 H2.
  assert (Hpipe : predict_pipeline env self url1 model_type
                  = predict_pipeline env self url2 model_type).
  { unfold predict_pipeline.
    now rewrite (extract_features_nonempty env self url1 None H1),
                (extract_features_nonempty env self url2 None H2). }
  split.
  { rewrite (extract_features_nonempty env self url1 None H1).
    apply default_feature_vector. }
  split; [exact Hpipe|].
  intros t1 t2. unfold predict. rewrite Hpipe.
  destruct (predict_pipeline env self url2 model_type); reflexivity.
Qed.

Lemma predict_blind_to_url_witness :
  predict_pipeline Example.env Example.predictor
                   "https://example.com/login" "ensemble"
  = predict_pipeline Example.env Example.predictor
                     "https://target.com/file.php?path=../../../etc/passwd" "ensemble".
Proof.
  apply (predict_blind_to_url
           Example.env Example.predictor "https://example.com/login"
           "https://target.com/file.php?path=../../../etc/passwd" "ensemble");
    discriminate.
Defined.

(** X6: the parts of a success result fit together.  When the dictionary
    [predict] returns has no key [error], it is the ten-field success
    dictionary, and its fields are tied to one run of the pipeline:
    [model_used] is the requested model when it is loaded and [ensemble]
    otherwise, and is a key of [models]; [predicted_attack_type] is the
    decoded prediction of that model on the scaled vector of the extracted
    features, [confidence] is the maximum of that model's probabilities,
    [risk_level] is [_determine_risk_level] of the two, [all_probabilities]
    is built from the same probabilities, [features] are the extracted
    features and [model_version] is the predictor's; the clock was read
    three times. *)
Theorem predict_success_consistent : forall env self url model_type t,
  dict_mem String.eqb (fst (predict env self url model_type t)) "error" = false ->
  let used :=
    if dict_mem String.eqb (models self) model_type then model_type else "ensemble" in
  let features := extract_features env self url None in
  exists model scaled label probabilities attack_type confidence all_probabilities,
    dict_get String.eqb (models self) used = Some model
    /\ scaler_transform self (feature_vector_of self features) = Ok scaled
    /\ clf_predict model scaled = Ok label
    /\ label_inverse_transform self label = Ok attack_type
    /\ clf_predict_proba model scaled = Ok probabilities
    /\ np_max probabilities = Ok confidence
    /\ all_probabilities_loop self 0 probabilities [] = Ok all_probabilities
    /\ fst (predict env self url model_type t)
       = [("url", PStr url);
          ("predicted_attack_type", PStr attack_type);
          ("confidence", PFloat confidence);
          ("risk_level", PStr (_determine_risk_level attack_type confidence));
          ("all_probabilities", PDict all_probabilities);
          ("features", PDict features);
          ("model_used", PStr used);
          ("model_version", PStr (model_version self));
          ("processing_time_ms",
            PFloat (processing_time_ms (clock env t) (clock env (t + 1)%nat)));
          ("timestamp", PStr (isoformat env (clock env (t + 2)%nat)))]
    /\ snd (predict env self url model_type t) = (t + 3)%nat.
Proof.
  intros env self url model_type t Herr used features.
  unfold predict in *.
  destruct (predict_pipeline env self url model_type) as [p|e] eqn:Hp;
    [clear Herr | discriminate Herr].
  unfold predict_pipeline in Hp. fold features in Hp. fold used in Hp.
  destruct (scaler_transform self _) as [scaled|e] eqn:Hs; simpl in Hp; [|discriminate].
  unfold models_getitem in Hp.
  destruct (dict_get String.eqb (models self) used) as [model|] eqn:Hm;
    simpl in Hp; [|discriminate].
  destruct (clf_predict model scaled) as [label|] eqn:Hl; simpl in Hp; [|discriminate].
  destruct (clf_predict_proba model scaled) as [probabilities|] eqn:Hpr;
    simpl in Hp; [|discriminate].
  destruct (label_inverse_transform self label) as [attack|] eqn:Ha;
    simpl in Hp; [|discriminate].
  destruct (np_max probabilities) as [confidence|] eqn:Hc; simpl in Hp; [|discriminate].
  destruct (all_probabilities_loop self 0 probabilities []) as [all|] eqn:Hall;
    simpl in Hp; [|discriminate].
  inversion Hp; subst p; clear Hp.
  exists model, scaled, label, probabilities, attack, confidence, all.
  repeat (split; [assumption || reflexivity|]). reflexivity.
Qed.

Lemma predict_success_consistent_witness :
  exists attack_type confidence,
    dict_get String.eqb
             (fst (predict Example.env Example.predictor
                           "https://example.com/login" "xgboost" 0))
             "predicted_attack_type" = Some (PStr attack_type)
    /\ dict_get String.eqb
                (fst (predict Example.env Example.predictor
                              "https://example.com/login" "xgboost" 0))
                "confidence" = Some (PFloat confidence)
    /\ dict_get String.eqb
                (fst (predict Example.env Example.predictor
                              "https://example.com/login" "xgboost" 0))
                "risk_level" = Some (PStr (_determine_risk_level attack_type confidence))
    /\ dict_get String.eqb
                (fst (predict Example.env Example.predictor
                              "https://example.com/login" "xgboost" 0))
                "model_used" = Some (PStr "xgboost").
Proof.
  destruct (predict_success_consistent
              Example.env Example.predictor "https://example.com/login" "xgboost" 0%nat)
    as (model & scaled & label & probabilities & attack_type & confidence
        & all_probabilities & _ & _ & _ & _ & _ & _ & _ & Hresult & _).
  - vm_compute. reflexivity.
  - exists attack_type, confidence. rewrite Hresult.
    repeat split; reflexivity.
Defined.

(** X7: when neither the requested model nor [ensemble] is loaded, [predict]
    returns an error result; if the scaler accepted the vector, the error is
    the [KeyError] for [ensemble]. *)
Theorem predict_without_ensemble : forall env self url model_type t,
  dict_mem String.eqb (models self) model_type = false ->
  dict_mem String.eqb (models self) "ensemble" = false ->
  dict_keys (fst (predict env self url model_type t)) = error_fields
  /\ ((exists scaled,
         scaler_transform self
           (feature_vector_of self (extract_features env self url None)) = Ok scaled) ->
      fst (predict env self url model_type t)
      = [("url", PStr url); ("error", PStr "'ensemble'");
         ("timestamp", PStr (isoformat env (clock env (t + 1)%nat)))]).
Proof.
  intros env self url model_type t Hm He.
  assert (Hget : dict_get String.eqb (models self) "ensemble" = None).
  { unfold dict_mem in He.
    destruct (dict_get String.eqb (models self) "ensemble"); [discriminate | reflexivity]. }
  unfold predict, predict_pipeline. rewrite Hm.
  destruct (scaler_transform self _) as [scaled|e]; simpl.
  - unfold models_getitem. rewrite Hget. simpl.
    split; [reflexivity | intros _; reflexivity].
  - split; [reflexivity | intros [scaled Hs]; discriminate].
Qed.

Lemma predict_without_ensemble_witness :
  fst (predict Example.env Example.predictor_without_ensemble
               "https://example.com/login" "xgboost" 0)
  = [("url", PStr "https://example.com/login"); ("error", PStr "'ensemble'");
     ("timestamp", PStr (isoformat Example.env (clock Example.env 1)))].
Proof.
  destruct (predict_without_ensemble
              Example.env Example.predictor_without_ensemble
              "https://example.com/login" "xgboost" 0%nat eq_refl eq_refl)
    as [_ H].
  apply H. eexists. vm_compute. reflexivity.
Defined.

Lemma sset_fresh : forall (d : pydict) k v,
  sget d k = None -> sset d k v = d ++ [(k, v)].
Proof.
  unfold sget, sset. induction d as [|[k' v'] d IH]; intros k v H; simpl in *.
  - reflexivity.
  - destruct (String.eqb k' k); [discriminate|]. now rewrite IH.
Qed.

Lemma sget_app_fresh : forall (d : pydict) k v k',
  k <> k' -> sget d k' = None -> sget (d ++ [(k, v)]) k' = None.
Proof.
  unfold sget. induction d as [|[k0 v0] d IH]; intros k v k' Hne H; simpl in *.
  - destruct (String.eqb_spec k k'); [contradiction | reflexivity].
  - destruct (String.eqb k0 k'); [discriminate|]. now apply IH.
Qed.

Lemma all_probabilities_loop_distinct : forall self probabilities names i acc,
  List.length names = List.length probabilities ->
  (forall j name, nth_error names j = Some name ->
                  label_inverse_transform self (i + Z.of_nat j) = Ok name) ->
  NoDup names ->
  (forall name, In name names -> sget acc name = None) ->
  all_probabilities_loop self i probabilities acc
  = Ok (acc ++ combine names (map PFloat probabilities)).
Proof.
  intros self. induction probabilities as [|prob rest IH];
    intros names i acc Hlen Hdec Hnd Hfresh.
  - destruct names; [|discriminate]. simpl. now rewrite app_nil_r.
  - destruct names as [|name names]; [discriminate|].
    pose proof (Hdec 0%nat name eq_refl) as H0.
    simpl in H0. rewrite Z.add_0_r in H0.
    simpl. rewrite H0. simpl.
    rewrite sset_fresh by (apply Hfresh; left; reflexivity).
    inversion Hnd as [|? ? Hnotin Hnd']; subst.
    rewrite (IH names).
    + now rewrite <- app_assoc.
    + simpl in Hlen. lia.
    + intros j n Hj. replace (i + 1 + Z.of_nat j) with (i + Z.of_nat (S j)) by lia.
      now apply Hdec.
    + exact Hnd'.
    + intros n Hn. apply sget_app_fresh.
      * intro E. subst. contradiction.
      * apply Hfresh. now right.
Qed.

Lemma sget_combine_distinct : forall (names : list string) (values : list pyval) j name v,
  NoDup names ->
  nth_error names j = Some name -> nth_error values j = Some v ->
  sget (combine names values) name = Some v.
Proof.
  unfold sget. induction names as [|n names IH]; intros values j name v Hnd Hn Hv.
  - destruct j; discriminate.
  - destruct values as [|x values]; [destruct j; discriminate|].
    inversion Hnd as [|? ? Hnotin Hnd']; subst.
    destruct j as [|j]; simpl in *.
    + inversion Hn; inversion Hv; subst. now rewrite String.eqb_refl.
    + destruct (String.eqb_spec n name) as [->|_].
      * exfalso. apply Hnotin. eapply nth_error_In; eauto.
      * eapply IH; eauto.
Qed.

(** X8: when the label encoder decodes the class indices [0 .. n-1] to [n]
    different names, [all_probabilities] has one entry per class, in class
    order, and looking a class name up gives the probability at its index. *)
Theorem all_probabilities_one_entry_per_class : forall self probabilities names,
  List.length names = List.length probabilities ->
  (forall j name, nth_error names j = Some name ->
                  label_inverse_transform self (Z.of_nat j) = Ok name) ->
  NoDup names ->
  all_probabilities_loop self 0 probabilities []
  = Ok (combine names (map PFloat probabilities))
  /\ dict_keys (combine names (map PFloat probabilities)) = names
  /\ forall j name prob,
       nth_error names j = Some name ->
       nth_error probabilities j = Some prob ->
       sget (combine names (map PFloat probabilities)) name = Some (PFloat prob).
Proof.
  intros self probabilities names Hlen Hdec Hnd.
  split.
  { rewrite (all_probabilities_loop_distinct self probabilities names 0 []); auto. }
  split.
  { unfold dict_keys.
    rewrite <- (length_map PFloat probabilities) in Hlen.
    revert Hlen. generalize (map PFloat probabilities).
    clear. induction names as [|n names IH]; intros [|v values] H;
      try discriminate; simpl; [reflexivity|].
    f_equal. apply IH. simpl in H. lia. }
  intros j name prob Hn Hp.
  apply (sget_combine_distinct names (map PFloat probabilities) j name (PFloat prob));
    auto.
  rewrite nth_error_map, Hp. reflexivity.
Qed.

Lemma all_probabilities_one_entry_per_class_witness :
  all_probabilities_loop Example.predictor 0 [0.1; 0.2; 0.7]%float []
  = Ok [("benign", PFloat 0.1); ("sqli", PFloat 0.2); ("xss", PFloat 0.7)].
Proof.
  destruct (all_probabilities_one_entry_per_class
              Example.predictor [0.1; 0.2; 0.7]%float Example.classes) as [H _].
  - reflexivity.
  - intros [|[|[|j]]] name Hj; simpl in Hj; inversion Hj; try reflexivity.
    destruct j; discriminate.
  - repeat constructor; simpl; intuition discriminate.
  - exact H.
Defined.

(** ** More on batch prediction *)

Lemma predict_url_field : forall env self url model_type t,
  sget (fst (predict env self url model_type t)) "url" = Some (PStr url).
Proof.
  intros. unfold predict.
  destruct (predict_pipeline env self url model_type); reflexivity.
Qed.

(** X9: every result of [batch_predict], success or error, carries the URL
    of its own position, so results can be matched to inputs by their [url]
    field as well as by position. *)
Theorem batch_predict_url_fields : forall env self urls model_type t,
  map (fun result => sget result "url") (fst (batch_predict env self urls model_type t))
  = map (fun url => Some (PStr url)) urls.
Proof.
  intros env self urls model_type. induction urls as [|url urls IH]; intro t.
  - reflexivity.
  - rewrite batch_predict_cons. simpl. rewrite IH.
    now rewrite predict_url_field.
Qed.

(** X10: a batch over two lists one after the other is the batch over the
    first list followed by the batch over the second, started at the clock
    state the first has left; each call reads the clock two or three times. *)
Theorem batch_predict_app : forall env self urls1 urls2 model_type t,
  batch_predict env self (urls1 ++ urls2) model_type t
  = (fst (batch_predict env self urls1 model_type t)
       ++ fst (batch_predict env self urls2 model_type
                             (snd (batch_predict env self urls1 model_type t))),
     snd (batch_predict env self urls2 model_type
                        (snd (batch_predict env self urls1 model_type t))))
  /\ (t + 2 * List.length urls1
      <= snd (batch_predict env self urls1 model_type t)
      <= t + 3 * List.length urls1)%nat.
Proof.
  intros env self urls1 urls2 model_type. induction urls1 as [|url urls1 IH]; intro t.
  - split; [|simpl; lia].
    simpl app.
    destruct (batch_predict env self urls2 model_type t) as [results t'] eqn:E.
    change (batch_predict env self [] model_type t) with (@nil pydict, t).
    simpl. now rewrite E.
  - destruct (IH (snd (predict env self url model_type t))) as [IH1 IH2].
    split.
    + simpl app. rewrite !batch_predict_cons. rewrite IH1. reflexivity.
    + rewrite batch_predict_cons. simpl snd. simpl List.length.
      assert (Ht : (t + 2 <= snd (predict env self url model_type t) <= t + 3)%nat).
      { unfold predict. destruct (predict_pipeline env self url model_type); simpl; lia. }
      lia.
Qed.

(** ** Artifact files *)

Lemma sdict_get_set : forall (V : Type) (d : list (string * V)) k v k',
  dict_get String.eqb (dict_set String.eqb d k v) k'
  = if String.eqb k k' then Some v else dict_get String.eqb d k'.
Proof.
  induction d as [|[k0 v0] d IH]; intros k v k'; simpl.
  - reflexivity.
  - destruct (String.eqb k0 k) eqn:E0; simpl.
    + apply String.eqb_eq in E0. subst k0.
      destruct (String.eqb k k'); reflexivity.
    + rewrite IH. destruct (String.eqb k0 k') eqn:E1; [|reflexivity].
      apply String.eqb_eq in E1. subst k0. now rewrite String.eqb_sym, E0.
Qed.

Lemma sdict_set_fresh : forall (V : Type) (d : list (string * V)) k v,
  dict_get String.eqb d k = None -> dict_set String.eqb d k v = d ++ [(k, v)].
Proof.
  induction d as [|[k' v'] d IH]; intros k v H; simpl in *.
  - reflexivity.
  - destruct (String.eqb k' k); [discriminate|]. now rewrite IH.
Qed.

Lemma sdict_get_app : forall (V : Type) (d d' : list (string * V)) k,
  dict_get String.eqb (d ++ d') k
  = match dict_get String.eqb d k with
    | Some v => Some v
    | None => dict_get String.eqb d' k
    end.
Proof.
  induction d as [|[k0 v0] d IH]; intros d' k; simpl; [reflexivity|].
  destruct (String.eqb k0 k); [reflexivity | apply IH].
Qed.

Lemma sdict_get_keys : forall (V : Type) (d : list (string * V)) k,
  In k (dict_keys d) <-> dict_get String.eqb d k <> None.
Proof.
  unfold dict_keys. induction d as [|[k0 v0] d IH]; intro k; simpl.
  - split; [intros [] | intro H; now apply H].
  - destruct (String.eqb_spec k0 k) as [->|Hne].
    + split; [discriminate | auto].
    + rewrite <- IH. split; [intros [H|H]; [contradiction | exact H] | auto].
Qed.

Lemma sdict_get_nodup : forall (V : Type) (d : list (string * V)) k v,
  NoDup (dict_keys d) -> In (k, v) d -> dict_get String.eqb d k = Some v.
Proof.
  unfold dict_keys. induction d as [|[k0 v0] d IH]; intros k v Hnd Hin; simpl in *.
  - destruct Hin.
  - inversion Hnd as [|? ? Hnotin Hnd']; subst.
    destruct Hin as [Hin|Hin].
    + inversion Hin; subst. now rewrite String.eqb_refl.
    + destruct (String.eqb_spec k0 k) as [->|_].
      * exfalso. apply Hnotin. apply in_map_iff. exists (k, v). auto.
      * now apply IH.
Qed.

(** *** File names *)

Lemma chars_app : forall a b : string,
  list_ascii_of_string (a ++ b)
  = (list_ascii_of_string a ++ list_ascii_of_string b)%list.
Proof.
  induction a as [|c a IH]; intro b; simpl; [reflexivity | now rewrite IH].
Qed.

Lemma string_app_inv_tail : forall a b t : string,
  (a ++ t)%string = (b ++ t)%string -> a = b.
Proof.
  intros a b t H. apply (f_equal list_ascii_of_string) in H.
  rewrite !chars_app in H. apply app_inv_tail in H.
  rewrite <- (string_of_list_ascii_of_string a), <- (string_of_list_ascii_of_string b).
  now rewrite H.
Qed.

Lemma last_char_app : forall a b : string,
  b <> "" -> last_char (a ++ b) = last_char b.
Proof.
  induction a as [|c a IH]; intros b Hb; [reflexivity|].
  simpl. rewrite IH by assumption.
  destruct (a ++ b)%string eqn:E; [|reflexivity].
  destruct a; simpl in E; [contradiction | discriminate].
Qed.

Lemma app_nonempty : forall a b : string, b <> "" -> (a ++ b)%string <> "".
Proof. intros [|c a] b Hb; simpl; [exact Hb | discriminate]. Qed.

Lemma model_path_inj : forall n n' v,
  Artifacts.model_path n v = Artifacts.model_path n' v -> n = n'.
Proof.
  intros n n' v H. unfold Artifacts.model_path, Artifacts.models_dir in H.
  simpl in H. injection H as H. now apply string_app_inv_tail in H.
Qed.

Lemma model_path_not_scaler : forall n v,
  n <> "scaler" -> Artifacts.model_path n v <> Artifacts.scaler_path v.
Proof.
  intros n v Hn H.
  unfold Artifacts.model_path, Artifacts.scaler_path, Artifacts.models_dir in H.
  simpl in H. injection H as H.
  change (String "s" (String "c" (String "a" (String "l" (String "e" (String "r"
            (String "_" (String "v" (v ++ ".pkl")))))))))
    with ("scaler" ++ "_v" ++ v ++ ".pkl")%string in H.
  apply string_app_inv_tail in H. contradiction.
Qed.

Lemma model_path_not_encoder : forall n v,
  n <> "label_encoder" -> Artifacts.model_path n v <> Artifacts.encoder_path v.
Proof.
  intros n v Hn H.
  unfold Artifacts.model_path, Artifacts.encoder_path, Artifacts.models_dir in H.
  simpl in H. injection H as H.
  change (String "l" (String "a" (String "b" (String "e" (String "l" (String "_"
          (String "e" (String "n" (String "c" (String "o" (String "d" (String "e"
          (String "r" (String "_" (String "v" (v ++ ".pkl"))))))))))))))))
    with ("label_encoder" ++ "_v" ++ v ++ ".pkl")%string in H.
  apply string_app_inv_tail in H. contradiction.
Qed.

Lemma scaler_path_not_encoder : forall v,
  Artifacts.scaler_path v <> Artifacts.encoder_path v.
Proof.
  intros v H. unfold Artifacts.scaler_path, Artifacts.encoder_path in H.
  simpl in H. discriminate.
Qed.

Lemma pickle_path_not_metadata : forall v,
  (forall n, Artifacts.model_path n v <> Artifacts.metadata_path v)
  /\ Artifacts.scaler_path v <> Artifacts.metadata_path v
  /\ Artifacts.encoder_path v <> Artifacts.metadata_path v.
Proof.
  intro v.
  assert (Hpkl : forall a : string, last_char (a ++ ".pkl") = Some "l"%char).
  { intro a. rewrite last_char_app; [reflexivity | discriminate]. }
  assert (Hjson : last_char (Artifacts.metadata_path v) = Some "n"%char).
  { unfold Artifacts.metadata_path.
    rewrite last_char_app by (apply app_nonempty, app_nonempty; discriminate).
    rewrite last_char_app by (apply app_nonempty; discriminate).
    rewrite last_char_app; [reflexivity | discriminate]. }
  assert (Hne : forall p, last_char p = Some "l"%char -> p <> Artifacts.metadata_path v).
  { intros p Hp E. rewrite E, Hjson in Hp. discriminate. }
  split; [|split].
  - intro n. apply Hne. unfold Artifacts.model_path.
    rewrite last_char_app by (repeat apply app_nonempty; discriminate).
    rewrite last_char_app by (repeat apply app_nonempty; discriminate).
    rewrite last_char_app by (repeat apply app_nonempty; discriminate).
    rewrite last_char_app by (repeat apply app_nonempty; discriminate).
    apply Hpkl.
  - apply Hne. unfold Artifacts.scaler_path.
    rewrite last_char_app by (repeat apply app_nonempty; discriminate).
    rewrite last_char_app by (repeat apply app_nonempty; discriminate).
    apply Hpkl.
  - apply Hne. unfold Artifacts.encoder_path.
    rewrite last_char_app by (repeat apply app_nonempty; discriminate).
    rewrite last_char_app by (repeat apply app_nonempty; discriminate).
    apply Hpkl.
Qed.

(** *** Loading *)

Lemma load_model_files_spec :
  forall (Obj : Type) (fs : Artifacts.filesystem Obj) v names acc loaded,
    Artifacts.load_model_files Obj fs v names acc = Ok loaded ->
    (forall name,
       dict_get String.eqb loaded name <> None
       <-> dict_get String.eqb acc name <> None
           \/ (In name names
               /\ Artifacts.os_path_exists Obj fs (Artifacts.model_path name v) = true))
    /\ (forall name o,
          dict_get String.eqb loaded name = Some o ->
          dict_get String.eqb acc name = Some o
          \/ dict_get String.eqb fs (Artifacts.model_path name v)
             = Some (Artifacts.PickleFile o)).
Proof.
  intros Obj fs v. induction names as [|n names IH]; intros acc loaded H; simpl in H.
  - inversion H; subst. split; [intro name; tauto | auto].
  - destruct (Artifacts.os_path_exists Obj fs (Artifacts.model_path n v)) eqn:Ex.
    + unfold Artifacts.joblib_load in H.
      destruct (dict_get String.eqb fs (Artifacts.model_path n v)) as [[o|d]|] eqn:Ef;
        simpl in H; try discriminate.
      destruct (IH _ _ H) as [IHm IHv]. split.
      * intro name. rewrite IHm, sdict_get_set.
        destruct (String.eqb_spec n name) as [->|Hne]; simpl.
        -- split; [auto | intros _; left; discriminate].
        -- split; [intros [?|[? ?]]; auto | intros [?|[[?|?] ?]]; auto; contradiction].
      * intros name o' Hget. destruct (IHv _ _ Hget) as [Hacc|Hfile]; [|auto].
        rewrite sdict_get_set in Hacc.
        destruct (String.eqb_spec n name) as [->|Hne]; [|auto].
        inversion Hacc; subst. auto.
    + destruct (IH _ _ H) as [IHm IHv]. split; [|exact IHv].
      intro name. rewrite IHm. simpl.
      split; [intros [?|[? ?]]; auto|].
      intros [?|[[->|?] Hex]]; auto. rewrite Ex in Hex. discriminate.
Qed.


(** X11: what a predictor that loaded has.  Its models are the model types
    of the metadata whose pickle exists, each with the object of its file;
    its scaler and label encoder are the objects of their files; its feature
    columns and attack types are those of the metadata; and
    [get_model_info] lists exactly the loaded model names. *)
Theorem load_models_contents :
  forall (Obj : Type) (fs : Artifacts.filesystem Obj) v (self : Artifacts.Loaded Obj),
    Artifacts.load_models Obj fs v = Ok self ->
    dict_get String.eqb fs (Artifacts.metadata_path v)
    = Some (Artifacts.JsonFile (Artifacts.ld_metadata Obj self))
    /\ Artifacts.jdict_getitem (Artifacts.ld_metadata Obj self) "feature_columns"
       = Ok (Artifacts.ld_feature_columns Obj self)
    /\ Artifacts.jdict_getitem (Artifacts.ld_metadata Obj self) "attack_types"
       = Ok (Artifacts.ld_attack_types Obj self)
    /\ (exists model_types,
          Artifacts.jdict_getitem (Artifacts.ld_metadata Obj self) "model_types"
          = Ok model_types
          /\ forall name,
               In name (dict_keys (Artifacts.ld_models Obj self))
               <-> In name (Artifacts.jval_iter model_types)
                   /\ Artifacts.os_path_exists Obj fs (Artifacts.model_path name v) = true)
    /\ (forall name model,
          dict_get String.eqb (Artifacts.ld_models Obj self) name = Some model ->
          dict_get String.eqb fs (Artifacts.model_path name v)
          = Some (Artifacts.PickleFile model))
    /\ dict_get String.eqb fs (Artifacts.scaler_path v)
       = Some (Artifacts.PickleFile (Artifacts.ld_scaler Obj self))
    /\ dict_get String.eqb fs (Artifacts.encoder_path v)
       = Some (Artifacts.PickleFile (Artifacts.ld_label_encoder Obj self))
    /\ dict_get String.eqb (Artifacts.get_model_info Obj self) "available_models"
       = Some (Artifacts.JList (dict_keys (Artifacts.ld_models Obj self))).
Proof.
  intros Obj fs v self H. unfold Artifacts.load_models in H.
  unfold Artifacts.json_load in H.
  destruct (dict_get String.eqb fs (Artifacts.metadata_path v)) as [[o|metadata]|] eqn:Em;
    simpl in H; try discriminate.
  destruct (Artifacts.jdict_getitem metadata "feature_columns") as [fc|] eqn:Efc;
    simpl in H; [|discriminate].
  destruct (Artifacts.jdict_getitem metadata "attack_types") as [ats|] eqn:Eat;
    simpl in H; [|discriminate].
  destruct (Artifacts.jdict_getitem metadata "model_types") as [mts|] eqn:Emt;
    simpl in H; [|discriminate].
  destruct (Artifacts.load_model_files Obj fs v (Artifacts.jval_iter mts) [])
    as [loaded|] eqn:El; simpl in H; [|discriminate].
  unfold Artifacts.joblib_load in H.
  destruct (dict_get String.eqb fs (Artifacts.scaler_path v)) as [[sc|]|] eqn:Es;
    simpl in H; try discriminate.
  destruct (dict_get String.eqb fs (Artifacts.encoder_path v)) as [[le|]|] eqn:Ee;
    simpl in H; try discriminate.
  inversion H; subst self; clear H. simpl.
  destruct (load_model_files_spec Obj fs v _ _ _ El) as [Hm Hv].
  split; [reflexivity|]. split; [exact Efc|]. split; [exact Eat|].
  split.
  { exists mts. split; [exact Emt|].
    intro name. rewrite sdict_get_keys, Hm. simpl.
    split; [intros [H|H]; [now contradiction H | exact H] | auto]. }
  split.
  { intros name model Hget.
    destruct (Hv _ _ Hget) as [Hacc|Hfile]; [discriminate | exact Hfile]. }
  split; [reflexivity|]. split; reflexivity.
Qed.



Lemma load_models_contents_witness :
  exists self,
    Artifacts.load_models string Artifacts.example_files "1.0.0" = Ok self
    /\ dict_keys (Artifacts.ld_models string self) = ["random_forest"; "xgboost"; "ensemble"]
    /\ dict_get String.eqb Artifacts.example_files (Artifacts.scaler_path "1.0.0")
       = Some (Artifacts.PickleFile (Artifacts.ld_scaler string self)).
Proof.
  eexists. split; [vm_compute; reflexivity|]. split; [reflexivity|].
  match goal with
  | |- _ = Some (Artifacts.PickleFile (Artifacts.ld_scaler string ?s)) =>
      destruct (load_models_contents string Artifacts.example_files "1.0.0" s)
        as (_ & _ & _ & _ & _ & Hscaler & _)
  end.
  - vm_compute. reflexivity.
  - exact Hscaler.
Defined.

(** *** Saving *)

Lemma save_model_files_plain :
  forall (Obj : Type) write_elsewhere (models : list (string * Obj)) v
         (fs : Artifacts.filesystem Obj),
    (forall n, In n (dict_keys models) ->
               Artifacts.plain_artifact_path (Artifacts.model_path n v) = true) ->
    exists fs',
      Artifacts.save_model_files Obj write_elsewhere models v fs = (fs', Ok tt)
      /\ (forall p,
            (forall n, In n (dict_keys models) -> Artifacts.model_path n v <> p) ->
            dict_get String.eqb fs' p = dict_get String.eqb fs p)
      /\ (NoDup (dict_keys models) ->
          forall n o, In (n, o) models ->
                      dict_get String.eqb fs' (Artifacts.model_path n v)
                      = Some (Artifacts.PickleFile o)).
Proof.
  intros Obj write_elsewhere models v.
  induction models as [|[n0 o0] models IH]; intros fs Hplain.
  - exists fs. split; [reflexivity|]. split; [reflexivity|].
    intros _ n o [].
  - simpl. unfold Artifacts.write_file.
    rewrite (Hplain n0) by (left; reflexivity).
    destruct (IH (dict_set String.eqb fs (Artifacts.model_path n0 v)
                           (Artifacts.PickleFile o0)))
      as (fs' & E & Hother & Hwritten).
    { intros n Hn. apply Hplain. right. exact Hn. }
    exists fs'. split; [exact E|]. split.
    + intros p Hp. rewrite Hother by (intros n Hn; apply Hp; right; exact Hn).
      rewrite sdict_get_set.
      destruct (String.eqb_spec (Artifacts.model_path n0 v) p) as [Ep|_]; [|reflexivity].
      exfalso. apply (Hp n0); [left; reflexivity | exact Ep].
    + intros Hnd n o Hin.
      inversion Hnd as [|? ? Hnotin Hnd']; subst.
      destruct Hin as [Hin|Hin].
      * inversion Hin; subst.
        rewrite Hother.
        -- rewrite sdict_get_set. now rewrite String.eqb_refl.
        -- intros n' Hn' En. apply model_path_inj in En. subst. contradiction.
      * now apply Hwritten.
Qed.

Lemma load_model_files_all :
  forall (Obj : Type) (fs : Artifacts.filesystem Obj) v (models acc : list (string * Obj)),
    (forall n o, In (n, o) models ->
                 dict_get String.eqb fs (Artifacts.model_path n v)
                 = Some (Artifacts.PickleFile o)) ->
    NoDup (dict_keys models) ->
    (forall n, In n (dict_keys models) -> dict_get String.eqb acc n = None) ->
    Artifacts.load_model_files Obj fs v (dict_keys models) acc = Ok (acc ++ models).
Proof.
  intros Obj fs v models.
  induction models as [|[n0 o0] models IH]; intros acc Hfs Hnd Hfresh.
  - simpl. now rewrite app_nil_r.
  - inversion Hnd as [|? ? Hnotin Hnd']; subst. simpl.
    unfold Artifacts.os_path_exists, dict_mem, Artifacts.joblib_load.
    rewrite (Hfs n0 o0) by (left; reflexivity). simpl.
    rewrite sdict_set_fresh by (apply Hfresh; left; reflexivity).
    rewrite IH.
    + now rewrite <- app_assoc.
    + intros n o Hin. apply Hfs. now right.
    + exact Hnd'.
    + intros n Hn. rewrite sdict_get_app.
      rewrite Hfresh by (right; exact Hn). simpl.
      destruct (String.eqb_spec n0 n) as [->|_]; [contradiction | reflexivity].
Qed.

(** X13: what [save_models] writes, [load_models] reads back.  When no
    regular file is in the way of the directory [models], every file name of
    the version is a plain name directly inside it, the trainer's scaler and
    label encoder are set and no model is named [scaler] or [label_encoder],
    loading the version just saved gives a predictor with the trainer's
    models under the same names and in the same order, its scaler, its label
    encoder, its feature columns and the classes of its label encoder. *)
Theorem save_then_load_round_trip :
  forall (Obj : Type) write_elsewhere (classes_ : Obj -> list string) created_at
         (trainer : Artifacts.Trainer Obj) v (fs : Artifacts.filesystem Obj)
         scaler encoder,
    dict_get String.eqb fs Artifacts.models_dir = None ->
    (forall n, In n (dict_keys (Artifacts.tr_models Obj trainer)) ->
               Artifacts.plain_artifact_path (Artifacts.model_path n v) = true) ->
    Artifacts.plain_artifact_path (Artifacts.scaler_path v) = true ->
    Artifacts.plain_artifact_path (Artifacts.encoder_path v) = true ->
    Artifacts.plain_artifact_path (Artifacts.metadata_path v) = true ->
    NoDup (dict_keys (Artifacts.tr_models Obj trainer)) ->
    ~ In "scaler" (dict_keys (Artifacts.tr_models Obj trainer)) ->
    ~ In "label_encoder" (dict_keys (Artifacts.tr_models Obj trainer)) ->
    dict_get String.eqb (Artifacts.tr_scalers Obj trainer) "features" = Some scaler ->
    dict_get String.eqb (Artifacts.tr_label_encoders Obj trainer) "attack_type"
    = Some encoder ->
    snd (Artifacts.save_models Obj write_elsewhere classes_ created_at trainer v fs)
    = Ok "models"
    /\ exists self,
         Artifacts.load_models
           Obj (fst (Artifacts.save_models Obj write_elsewhere classes_ created_at
                                           trainer v fs)) v
         = Ok self
         /\ Artifacts.ld_model_version Obj self = v
         /\ Artifacts.ld_models Obj self = Artifacts.tr_models Obj trainer
         /\ Artifacts.ld_scaler Obj self = scaler
         /\ Artifacts.ld_label_encoder Obj self = encoder
         /\ Artifacts.ld_feature_columns Obj self
            = Artifacts.JList (Artifacts.tr_feature_columns Obj trainer)
         /\ Artifacts.ld_attack_types Obj self = Artifacts.JList (classes_ encoder)
         /\ dict_get String.eqb (Artifacts.ld_metadata Obj self) "version"
            = Some (Artifacts.JStr v).
Proof.
  intros Obj write_elsewhere classes_ created_at trainer v fs scaler encoder
         Hdir Hpm Hps Hpe Hpj Hnd Hns Hne Hs He.
  destruct (pickle_path_not_metadata v) as (Hmm & Hsm & Hem).
  destruct (save_model_files_plain Obj write_elsewhere
              (Artifacts.tr_models Obj trainer) v fs Hpm)
    as (fs1 & Hsave & _ & Hwritten).
  unfold Artifacts.save_models, Artifacts.os_makedirs.
  rewrite Hdir, Hsave.
  unfold Artifacts.save_preprocessors_and_metadata, Artifacts.write_file.
  rewrite Hs, Hps, He, Hpe, Hpj. simpl.
  split; [reflexivity|].
  set (metadata := [("version", Artifacts.JStr v);
                    ("feature_columns",
                      Artifacts.JList (Artifacts.tr_feature_columns Obj trainer));
                    ("attack_types", Artifacts.JList (classes_ encoder));
                    ("created_at", Artifacts.JStr created_at);
                    ("model_types",
                      Artifacts.JList (dict_keys (Artifacts.tr_models Obj trainer)))]).
  set (fs4 := dict_set String.eqb
                (dict_set String.eqb
                   (dict_set String.eqb fs1 (Artifacts.scaler_path v)
                             (Artifacts.PickleFile scaler))
                   (Artifacts.encoder_path v) (Artifacts.PickleFile encoder))
                (Artifacts.metadata_path v) (Artifacts.JsonFile metadata)).
  assert (Hget : forall p,
            dict_get String.eqb fs4 p
            = if String.eqb (Artifacts.metadata_path v) p
              then Some (Artifacts.JsonFile metadata)
              else if String.eqb (Artifacts.encoder_path v) p
                   then Some (Artifacts.PickleFile encoder)
                   else if String.eqb (Artifacts.scaler_path v) p
                        then Some (Artifacts.PickleFile scaler)
                        else dict_get String.eqb fs1 p).
  { intro p. unfold fs4. now rewrite !sdict_get_set. }
  assert (Hmeta : dict_get String.eqb fs4 (Artifacts.metadata_path v)
                  = Some (Artifacts.JsonFile metadata)).
  { rewrite Hget. now rewrite String.eqb_refl. }
  assert (Henc : dict_get String.eqb fs4 (Artifacts.encoder_path v)
                 = Some (Artifacts.PickleFile encoder)).
  { rewrite Hget.
    destruct (String.eqb_spec (Artifacts.metadata_path v) (Artifacts.encoder_path v))
      as [E|_]; [now contradiction Hem|].
    now rewrite String.eqb_refl. }
  assert (Hsc : dict_get String.eqb fs4 (Artifacts.scaler_path v)
                = Some (Artifacts.PickleFile scaler)).
  { rewrite Hget.
    destruct (String.eqb_spec (Artifacts.metadata_path v) (Artifacts.scaler_path v))
      as [E|_]; [now contradiction Hsm|].
    destruct (String.eqb_spec (Artifacts.encoder_path v) (Artifacts.scaler_path v))
      as [E|_]; [now contradiction (scaler_path_not_encoder v)|].
    now rewrite String.eqb_refl. }
  assert (Hmodels : forall n o,
            In (n, o) (Artifacts.tr_models Obj trainer) ->
            dict_get String.eqb fs4 (Artifacts.model_path n v)
            = Some (Artifacts.PickleFile o)).
  { intros n o Hin. rewrite Hget.
    assert (Hkey : In n (dict_keys (Artifacts.tr_models Obj trainer))).
    { unfold dict_keys. apply in_map_iff. exists (n, o). auto. }
    destruct (String.eqb_spec (Artifacts.metadata_path v) (Artifacts.model_path n v))
      as [E|_]; [exfalso; now apply (Hmm n)|].
    destruct (String.eqb_spec (Artifacts.encoder_path v) (Artifacts.model_path n v))
      as [E|_].
    { exfalso. apply (model_path_not_encoder n v); [|now symmetry].
      intro En. subst. contradiction. }
    destruct (String.eqb_spec (Artifacts.scaler_path v) (Artifacts.model_path n v))
      as [E|_].
    { exfalso. apply (model_path_not_scaler n v); [|now symmetry].
      intro En. subst. contradiction. }
    now apply Hwritten. }
  eexists. split.
  - unfold Artifacts.load_models, Artifacts.json_load. rewrite Hmeta. simpl.
    rewrite (load_model_files_all Obj fs4 v (Artifacts.tr_models Obj trainer) []);
      auto.
    simpl. unfold Artifacts.joblib_load. rewrite Hsc, Henc. simpl. reflexivity.
  - simpl. repeat split; reflexivity.
Qed.

Lemma save_then_load_round_trip_witness :
  exists self,
    Artifacts.load_models string Artifacts.example_files "1.0.0" = Ok self
    /\ Artifacts.ld_models string self
       = Artifacts.tr_models string Artifacts.example_trainer.
Proof.
  destruct (save_then_load_round_trip
              string Artifacts.no_subdirectories
              Artifacts.example_classes "2023-11-14T22:13:20"
              Artifacts.example_trainer "1.0.0" []
              "StandardScaler" "LabelEncoder")
    as (_ & self & Hload & _ & Hmodels & _).
  - reflexivity.
  - intros n Hn. simpl in Hn.
    destruct Hn as [<-|[<-|[<-|[]]]]; vm_compute; reflexivity.
  - vm_compute. reflexivity.
  - vm_compute. reflexivity.
  - vm_compute. reflexivity.
  - repeat constructor; simpl; intuition discriminate.
  - simpl. intuition discriminate.
  - simpl. intuition discriminate.
  - reflexivity.
  - reflexivity.
  - exists self. split; [exact Hload | exact Hmodels].
Defined.

(** X14: [save_models] on a trainer whose scaler was never fitted raises
    [KeyError] for [features] after it has written the model files.  When no
    regular file is in the way of the directory [models] and every model's
    file name is a plain name directly inside it, every model's pickle is on
    disk, the metadata file is untouched, and a directory without metadata
    before the call cannot be loaded after it. *)
Theorem save_models_without_scaler :
  forall (Obj : Type) write_elsewhere (classes_ : Obj -> list string) created_at
         (trainer : Artifacts.Trainer Obj) v (fs : Artifacts.filesystem Obj),
    dict_get String.eqb fs Artifacts.models_dir = None ->
    (forall n, In n (dict_keys (Artifacts.tr_models Obj trainer)) ->
               Artifacts.plain_artifact_path (Artifacts.model_path n v) = true) ->
    dict_get String.eqb (Artifacts.tr_scalers Obj trainer) "features" = None ->
    NoDup (dict_keys (Artifacts.tr_models Obj trainer)) ->
    snd (Artifacts.save_models Obj write_elsewhere classes_ created_at trainer v fs)
    = Raise (KeyError "features")
    /\ (forall n o,
          In (n, o) (Artifacts.tr_models Obj trainer) ->
          dict_get String.eqb
                   (fst (Artifacts.save_models Obj write_elsewhere classes_ created_at
                                               trainer v fs))
                   (Artifacts.model_path n v)
          = Some (Artifacts.PickleFile o))
    /\ dict_get String.eqb
                (fst (Artifacts.save_models Obj write_elsewhere classes_ created_at
                                            trainer v fs))
                (Artifacts.metadata_path v)
       = dict_get String.eqb fs (Artifacts.metadata_path v)
    /\ (dict_get String.eqb fs (Artifacts.metadata_path v) = None ->
        exists e,
          Artifacts.load_models
            Obj (fst (Artifacts.save_models Obj write_elsewhere classes_ created_at
                                            trainer v fs)) v
          = Raise e).
Proof.
  intros Obj write_elsewhere classes_ created_at trainer v fs Hdir Hpm Hs Hnd.
  destruct (pickle_path_not_metadata v) as (Hmm & _ & _).
  destruct (save_model_files_plain Obj write_elsewhere
              (Artifacts.tr_models Obj trainer) v fs Hpm)
    as (fs1 & Hsave & Hother & Hwritten).
  unfold Artifacts.save_models, Artifacts.os_makedirs.
  rewrite Hdir, Hsave.
  unfold Artifacts.save_preprocessors_and_metadata. rewrite Hs. simpl.
  assert (Hmeta : dict_get String.eqb fs1 (Artifacts.metadata_path v)
                  = dict_get String.eqb fs (Artifacts.metadata_path v)).
  { apply Hother. intros n _. apply Hmm. }
  split; [reflexivity|].
  split; [intros n o Hin; now apply Hwritten|].
  split; [exact Hmeta|].
  intro Hnone. eexists.
  unfold Artifacts.load_models, Artifacts.json_load.
  rewrite Hmeta, Hnone. reflexivity.
Qed.

Lemma save_models_without_scaler_witness :
  snd (Artifacts.save_models
         string Artifacts.no_subdirectories
         Artifacts.example_classes "2023-11-14T22:13:20"
         {| Artifacts.tr_models := [("random_forest", "RandomForestClassifier")];
            Artifacts.tr_scalers := [];
            Artifacts.tr_label_encoders := [];
            Artifacts.tr_feature_columns := Training.feature_columns |}
         "1.0.0" [])
  = Raise (KeyError "features").
Proof.
  apply (save_models_without_scaler
           string Artifacts.no_subdirectories
           Artifacts.example_classes "2023-11-14T22:13:20"
           {| Artifacts.tr_models := [("random_forest", "RandomForestClassifier")];
              Artifacts.tr_scalers := [];
              Artifacts.tr_label_encoders := [];
              Artifacts.tr_feature_columns := Training.feature_columns |}
           "1.0.0" []).
  - reflexivity.
  - intros n Hn. simpl in Hn. destruct Hn as [<-|[]]. vm_compute. reflexivity.
  - reflexivity.
  - repeat constructor. simpl. intuition.
Defined.

(** ** Synthetic training data *)

Lemma py_max_zero : forall x,
  TrainingData.py_max (PInt 0) x = PInt 0
  \/ TrainingData.py_lt (PInt 0) (TrainingData.py_max (PInt 0) x) = true.
Proof.
  intro x. unfold TrainingData.py_max.
  destruct (TrainingData.py_lt (PInt 0) x) eqn:E; auto.
Qed.

Lemma py_clamp_unit : forall x,
  let v := TrainingData.py_max (PInt 0) (TrainingData.py_min (PInt 1) x) in
  v = PInt 0 \/ v = PInt 1
  \/ (TrainingData.py_lt (PInt 0) v = true /\ TrainingData.py_lt v (PInt 1) = true).
Proof.
  intro x. unfold TrainingData.py_max, TrainingData.py_min.
  destruct (TrainingData.py_lt x (PInt 1)) eqn:E1.
  - destruct (TrainingData.py_lt (PInt 0) x) eqn:E0; auto.
  - right. left. reflexivity.
Qed.

Lemma attack_features_shape : forall rng attack_type n,
  dict_keys (fst (TrainingData._generate_attack_features rng attack_type n))
  = Training.feature_columns
  /\ (forall key v,
        In (key, v) (fst (TrainingData._generate_attack_features rng attack_type n)) ->
        v = PInt 0 \/ TrainingData.py_lt (PInt 0) v = true)
  /\ (forall v,
        sget (fst (TrainingData._generate_attack_features rng attack_type n))
             "frequency_score" = Some v ->
        v = PInt 0 \/ v = PInt 1
        \/ (TrainingData.py_lt (PInt 0) v = true
            /\ TrainingData.py_lt v (PInt 1) = true)).
Proof.
  intros rng attack_type n. unfold TrainingData._generate_attack_features.
  destruct (String.eqb attack_type "sqli");
    [|destruct (String.eqb attack_type "xss");
      [|destruct (String.eqb attack_type "directory_traversal");
        [|destruct (String.eqb attack_type "command_injection")]]].
  all: cbn -[TrainingData.py_max TrainingData.py_min TrainingData.py_lt Nat.add Z.add].
  all: split; [reflexivity|]; split;
    [ intros key v Hin;
      repeat (destruct Hin as [Hin|Hin];
              [inversion Hin; subst;
               first [apply py_max_zero
                     | destruct (py_clamp_unit
                                   (PFloat (TrainingData.beta rng (n + 11) 2 5)))
                         as [H|[H|[H _]]]; rewrite ?H; auto]|]);
      destruct Hin
    | intros v Hv; inversion Hv; apply py_clamp_unit ].
Qed.

(** X15: the features [_generate_attack_features] returns are named by the
    trainer's feature columns, in their order, and none is negative: each
    value is 0 or greater than 0, and [frequency_score] is 0, 1 or strictly
    between them, whatever the random draws and the attack type. *)
Theorem generated_attack_features_clamped : forall rng attack_type n,
  let features := fst (TrainingData._generate_attack_features rng attack_type n) in
  dict_keys features = Training.feature_columns
  /\ (forall key v,
        In (key, v) features -> v = PInt 0 \/ TrainingData.py_lt (PInt 0) v = true)
  /\ (forall v,
        sget features "frequency_score" = Some v ->
        v = PInt 0 \/ v = PInt 1
        \/ (TrainingData.py_lt (PInt 0) v = true
            /\ TrainingData.py_lt v (PInt 1) = true))
  /\ (n + 13 <= snd (TrainingData._generate_attack_features rng attack_type n)
      <= n + 16)%nat.
Proof.
  intros rng attack_type n features. subst features.
  destruct (attack_features_shape rng attack_type n) as (Hk & Hv & Hf).
  split; [exact Hk|]. split; [exact Hv|]. split; [exact Hf|].
  unfold TrainingData._generate_attack_features.
  destruct (String.eqb attack_type "sqli");
    [|destruct (String.eqb attack_type "xss");
      [|destruct (String.eqb attack_type "directory_traversal");
        [|destruct (String.eqb attack_type "command_injection")]]];
    simpl snd; lia.
Qed.

Lemma sset_new_key : forall (d : pydict) k v,
  ~ In k (dict_keys d) ->
  dict_keys (sset d k v) = dict_keys d ++ [k]
  /\ sget (sset d k v) k = Some v
  /\ forall k', k' <> k -> sget (sset d k v) k' = sget d k'.
Proof.
  intros d k v Hk.
  assert (Hnone : sget d k = None).
  { unfold sget. destruct (dict_get String.eqb d k) eqn:E; [|reflexivity].
    exfalso. apply Hk. apply sdict_get_keys. congruence. }
  split; [|split].
  - rewrite sset_fresh by exact Hnone. unfold dict_keys. now rewrite map_app.
  - apply sget_sset_same.
  - intros k' Hne. apply sget_sset_other. congruence.
Qed.

Lemma generate_sample_row : forall rng n,
  (forall m l, l <> [] -> In (TrainingData.choice rng m l) l) ->
  let row := fst (TrainingData.generate_sample rng n) in
  dict_keys row = Training.feature_columns ++ ["attack_type"]
  /\ (exists label,
        sget row "attack_type" = Some (PStr label)
        /\ (label = "benign" \/ In label TrainingData.attack_types))
  /\ (sget row "attack_type" = Some (PStr "benign") ->
      sget row "suspicious_keyword_count" = Some (PInt 0)).
Proof.
  intros rng n Hchoice row. subst row. unfold TrainingData.generate_sample.
  destruct (PrimFloat.ltb (TrainingData.random rng n) 0.8).
  - set (attack_type := TrainingData.choice rng (n + 1) TrainingData.attack_types).
    assert (Hin : In attack_type TrainingData.attack_types)
      by (apply Hchoice; discriminate).
    destruct (TrainingData._generate_attack_features rng attack_type (n + 1 + 1))
      as [features n'] eqn:E.
    destruct (attack_features_shape rng attack_type (n + 1 + 1)) as (Hk & _ & _).
    rewrite E in Hk. simpl in Hk. simpl fst.
    assert (Hfresh : ~ In "attack_type" (dict_keys features)).
    { rewrite Hk. simpl. intuition discriminate. }
    destruct (sset_new_key features "attack_type" (PStr attack_type) Hfresh)
      as (Hkeys & Hget & _).
    split; [now rewrite Hkeys, Hk|].
    split; [exists attack_type; auto|].
    intro Hb. rewrite Hget in Hb. inversion Hb as [Hlabel].
    rewrite Hlabel in Hin. simpl in Hin. exfalso. intuition discriminate.
  - cbn. split; [reflexivity|]. split; [|reflexivity].
    exists "benign". auto.
Qed.

Lemma generate_rows_spec : forall rng n_samples n,
  (forall m l, l <> [] -> In (TrainingData.choice rng m l) l) ->
  List.length (TrainingData.generate_rows rng n_samples n) = n_samples
  /\ forall row, In row (TrainingData.generate_rows rng n_samples n) ->
       exists m, row = fst (TrainingData.generate_sample rng m).
Proof.
  intros rng. induction n_samples as [|k IH]; intros n Hchoice; simpl.
  - split; [reflexivity | intros row []].
  - destruct (TrainingData.generate_sample rng n) as [row0 n'] eqn:E.
    destruct (IH n' Hchoice) as [Hlen Hrows]. simpl. split; [now rewrite Hlen|].
    intros row [<-|Hin]; [exists n; now rewrite E | now apply Hrows].
Qed.

(** X16: [generate_synthetic_data(n)] returns [n] rows.  Every row has the
    trainer's feature columns followed by [attack_type]; its label is
    [benign] or one of the twelve attack types; and a row labelled [benign]
    has no suspicious keyword.  The random choice is only required to return
    an element of the list it is given. *)
Theorem synthetic_data_rows : forall rng n_samples,
  (forall m l, l <> [] -> In (TrainingData.choice rng m l) l) ->
  List.length (TrainingData.generate_synthetic_data rng n_samples) = n_samples
  /\ forall row,
       In row (TrainingData.generate_synthetic_data rng n_samples) ->
       dict_keys row = Training.feature_columns ++ ["attack_type"]
       /\ (exists label,
             sget row "attack_type" = Some (PStr label)
             /\ (label = "benign" \/ In label TrainingData.attack_types))
       /\ (sget row "attack_type" = Some (PStr "benign") ->
           sget row "suspicious_keyword_count" = Some (PInt 0)).
Proof.
  intros rng n_samples Hchoice. unfold TrainingData.generate_synthetic_data.
  destruct (generate_rows_spec rng n_samples 0%nat Hchoice) as [Hlen Hrows].
  split; [exact Hlen|].
  intros row Hin. destruct (Hrows row Hin) as [m ->].
  now apply generate_sample_row.
Qed.

Lemma synthetic_data_rows_witness :
  List.length (TrainingData.generate_synthetic_data TrainingData.example_rng 4) = 4%nat.
Proof.
  apply (synthetic_data_rows TrainingData.example_rng 4).
  intros m l Hl. simpl. apply nth_In.
  apply Nat.mod_upper_bound. destruct l; [contradiction | discriminate].
Defined.

(** ** Feature names across the two scripts *)

Lemma dict_update_keeps : forall (other d : pydict) k,
  sget d k <> None -> sget (dict_update String.eqb d other) k <> None.
Proof.
  unfold dict_update.
  induction other as [|[k0 v0] other IH]; intros d k H; simpl; [exact H|].
  apply IH. change (dict_set String.eqb d k0 v0) with (sset d k0 v0).
  destruct (String.eqb_spec k0 k) as [->|Hne].
  - rewrite sget_sset_same. discriminate.
  - now rewrite sget_sset_other.
Qed.

(** X17: whenever the [try] block of [extract_features] completes, the
    dictionary it returns has a value for every feature column of the
    trainer; without additional features its keys are exactly those thirteen
    names, each once.  So with the trainer's columns in the metadata,
    [predict] finds every column in such a dictionary and substitutes no
    default. *)
Theorem extractor_names_cover_trainer_columns :
  forall env url additional features,
    extract_features_body env url additional = Ok features ->
    (forall col, In col Training.feature_columns -> sget features col <> None)
    /\ (additional = None ->
        NoDup (dict_keys features)
        /\ List.length (dict_keys features) = List.length Training.feature_columns
        /\ forall col, In col (dict_keys features) <-> In col Training.feature_columns)
    /\ (forall self,
          feature_columns self = Training.feature_columns ->
          forall i col,
            nth_error (feature_columns self) i = Some col ->
            exists value,
              sget features col = Some value
              /\ nth_error (feature_vector_of self features) i = Some value).
Proof.
  intros env url additional features H.
  unfold extract_features_body, bind in H.
  destruct (urlparse env url) as [parsed|]; [|discriminate].
  cbv beta zeta in H.
  destruct (parse_qs env (query parsed)) as [params|]; [|discriminate].
  cbv beta zeta in H.
  destruct (_calculate_entropy env url) as [entropy|]; [|discriminate].
  cbv beta zeta in H.
  match type of H with
  | context [sset ?l "entropy" ?v] => set (d := sset l "entropy" v) in H
  end.
  assert (Hkeys : dict_keys d
                  = ["url_length"; "domain_length"; "path_length"; "query_length";
                     "special_char_count"; "digit_count"; "path_depth";
                     "subdomain_count"; "parameter_count"; "encoded_chars_count";
                     "frequency_score"; "suspicious_keyword_count"; "entropy"])
    by (subst d; lazy; reflexivity).
  clearbody d.
  assert (Hbase : forall col, In col Training.feature_columns -> sget d col <> None).
  { intros col Hcol. apply sdict_get_keys. rewrite Hkeys.
    simpl in Hcol. simpl. tauto. }
  assert (Hcover : forall col, In col Training.feature_columns ->
                               sget features col <> None).
  { intros col Hcol.
    destruct additional as [[|kv more]|]; injection H as <-;
      try (now apply Hbase).
    apply (dict_update_keeps (kv :: more) d col). now apply Hbase. }
  split; [exact Hcover|]. split.
  - intros ->. injection H as <-. rewrite Hkeys.
    split; [repeat constructor; simpl; intuition discriminate|].
    split; [reflexivity|]. intro col. simpl. tauto.
  - intros self Hcols i col Hi.
    assert (Hcol : In col Training.feature_columns).
    { rewrite <- Hcols. eapply nth_error_In; eauto. }
    destruct (sget features col) as [value|] eqn:Ev; [|now contradiction (Hcover col Hcol)].
    exists value. split; [reflexivity|].
    rewrite feature_vector_of_map, nth_error_map, Hi. simpl.
    unfold dict_get_default. unfold sget in Ev. now rewrite Ev.
Qed.

Lemma extractor_names_cover_trainer_columns_witness :
  exists features,
    extract_features_body Example.env "" None = Ok features
    /\ sget features "entropy" <> None.
Proof.
  eexists. split; [vm_compute; reflexivity|].
  match goal with
  | |- sget ?f "entropy" <> None =>
      destruct (extractor_names_cover_trainer_columns Example.env "" None f) as [H _]
  end.
  - vm_compute. reflexivity.
  - apply H. simpl. tauto.
Defined.

(** ** Building the ensemble *)

(** X18: [create_ensemble] needs both members and their fits.  Without
    [random_forest] it raises [KeyError] for that name, with it but without
    [xgboost] it raises [KeyError] for [xgboost]; when the targets fail the
    checks of [fit], or the fit of a member's copy raises, it raises the same
    exception, the forest's before the booster's; in all these cases nothing
    is stored.  Otherwise it stores the ensemble of the two fitted copies
    under [ensemble] and leaves every other model as it was. *)
Theorem create_ensemble_members :
  forall (Features Labels : Type) (check_targets : Labels -> result unit)
         (refit : Training.model -> Features -> Labels -> result Training.model)
         models X y,
  match dict_get String.eqb models "random_forest",
        dict_get String.eqb models "xgboost" with
  | None, _ =>
      Training.create_ensemble check_targets refit models X y
      = Raise (KeyError "random_forest")
  | Some _, None =>
      Training.create_ensemble check_targets refit models X y
      = Raise (KeyError "xgboost")
  | Some rf, Some xgb =>
      match check_targets y, refit rf X y, refit xgb X y with
      | Raise e, _, _ =>
          Training.create_ensemble check_targets refit models X y = Raise e
      | Ok _, Raise e, _ =>
          Training.create_ensemble check_targets refit models X y = Raise e
      | Ok _, Ok _, Raise e =>
          Training.create_ensemble check_targets refit models X y = Raise e
      | Ok _, Ok rf_fitted, Ok xgb_fitted =>
          exists ensemble models',
            Training.create_ensemble check_targets refit models X y
            = Ok (ensemble, models')
            /\ dict_get String.eqb models' "ensemble" = Some ensemble
            /\ (forall name, name <> "ensemble" ->
                  dict_get String.eqb models' name = dict_get String.eqb models name)
            /\ forall x, Training.predict_proba ensemble x
                         = Training.average [Training.predict_proba rf_fitted x;
                                             Training.predict_proba xgb_fitted x]
      end
  end.
Proof.
  intros Features Labels check_targets refit models X y.
  unfold Training.create_ensemble, Training.models_getitem.
  destruct (dict_get String.eqb models "random_forest") as [rf|]; [|reflexivity].
  destruct (dict_get String.eqb models "xgboost") as [xgb|]; [|reflexivity].
  simpl. unfold Training.VotingClassifier_fit.
  destruct (check_targets y) as [[]|e]; simpl; [|reflexivity].
  destruct (refit rf X y) as [rf_fitted|e]; simpl; [|reflexivity].
  destruct (refit xgb X y) as [xgb_fitted|e]; simpl; [|reflexivity].
  eexists. eexists. split; [reflexivity|].
  split; [apply sget_sset_same_gen|].
  split; [|reflexivity].
  intros name Hne. rewrite sdict_get_set.
  destruct (String.eqb_spec "ensemble" name) as [E|_]; [congruence | reflexivity].
Qed.

(** ** From the files to a prediction *)




(** ** Character counts of the extractor *)

Lemma count_chars_bounds : forall p s, 0 <= count_chars p s <= len s.
Proof.
  intros p. unfold len. induction s as [|c s IH]; simpl String.length; simpl count_chars.
  - lia.
  - destruct (p c); lia.
Qed.

Lemma digit_not_special : forall c, is_digit c = true -> is_special c = false.
Proof.
  intros [b0 b1 b2 b3 b4 b5 b6 b7].
  destruct b0, b1, b2, b3, b4, b5, b6, b7; vm_compute; congruence.
Qed.

Lemma count_digit_special : forall s,
  count_chars is_digit s + count_chars is_special s <= len s.
Proof.
  unfold len. induction s as [|c s IH]; simpl String.length; simpl count_chars.
  - lia.
  - destruct (is_digit c) eqn:Ed.
    + rewrite (digit_not_special c Ed). lia.
    + destruct (is_special c); lia.
Qed.

Lemma count_encoded_step : forall c a b rest,
  count_encoded (String c (String a (String b rest)))
  = if Ascii.eqb c "%" && is_hex a && is_hex b
    then 1 + count_encoded rest
    else count_encoded (String a (String b rest)).
Proof. reflexivity. Qed.

Lemma count_encoded_short : forall c s,
  (String.length s < 2)%nat -> count_encoded (String c s) = count_encoded s.
Proof.
  intros c [|a [|b rest]] H; simpl in H; try lia; reflexivity.
Qed.

Lemma count_encoded_bounds : forall n s,
  (String.length s <= n)%nat ->
  0 <= count_encoded s
  /\ count_encoded s <= count_chars is_special s
  /\ 3 * count_encoded s <= len s.
Proof.
  unfold len. induction n as [|n IH]; intros s Hn.
  - destruct s; simpl in Hn; [simpl; lia | lia].
  - destruct s as [|c s]; [simpl; lia|].
    simpl in Hn.
    destruct (IH s ltac:(lia)) as (H0 & H1 & H2).
    pose proof (count_chars_bounds is_special s) as Hs.
    destruct s as [|a [|b rest]].
    + rewrite count_encoded_short by (simpl; lia).
      simpl count_chars. simpl String.length. simpl count_encoded.
      destruct (is_special c); lia.
    + rewrite count_encoded_short by (simpl; lia).
      simpl count_chars in *. simpl String.length in *. simpl count_encoded in *.
      destruct (is_special c); lia.
    + rewrite count_encoded_step.
      destruct (Ascii.eqb c "%" && is_hex a && is_hex b) eqn:E.
      * apply andb_true_iff in E. destruct E as [E _].
        apply andb_true_iff in E. destruct E as [E _].
        apply Ascii.eqb_eq in E. subst c.
        simpl in Hn.
        destruct (IH rest ltac:(lia)) as (R0 & R1 & R2).
        change (count_chars is_special (String "%" (String a (String b rest))))
          with (1 + ((if is_special a then 1 else 0)
                     + ((if is_special b then 1 else 0) + count_chars is_special rest))).
        change (String.length (String "%" (String a (String b rest))))
          with (S (S (S (String.length rest)))).
        destruct (is_special a), (is_special b); lia.
      * change (count_chars is_special (String c (String a (String b rest))))
          with ((if is_special c then 1 else 0)
                + count_chars is_special (String a (String b rest))).
        change (String.length (String c (String a (String b rest))))
          with (S (String.length (String a (String b rest)))).
        destruct (is_special c); lia.
Qed.

(** X20: the character counts the extractor computes from one URL fit
    together: digits and special characters are different characters, so
    their counts add up to at most the length; every percent escape takes
    three characters and starts with a special character, so
    [encoded_chars_count] is at most [special_char_count] and at most a third
    of the length. *)
Theorem url_character_counts : forall url,
  0 <= count_chars is_digit url
  /\ 0 <= count_chars is_special url
  /\ count_chars is_digit url + count_chars is_special url <= len url
  /\ 0 <= count_encoded url
  /\ count_encoded url <= count_chars is_special url
  /\ 3 * count_encoded url <= len url.
Proof.
  intro url.
  destruct (count_encoded_bounds (String.length url) url (Nat.le_refl _)) as (H0 & H1 & H2).
  pose proof (count_chars_bounds is_digit url).
  pose proof (count_chars_bounds is_special url).
  pose proof (count_digit_special url).
  repeat split; lia.
Qed.

(** ** Overlapping patterns *)

Lemma prefix_split : forall p s,
  String.prefix p s = true -> exists b, s = (p ++ b)%string.
Proof.
  induction p as [|a p IH]; intros s H.
  - exists s. reflexivity.
  - destruct s as [|c s]; simpl in H; [discriminate|].
    destruct (ascii_dec a c) as [->|]; [|discriminate].
    destruct (IH s H) as [b ->]. exists b. reflexivity.
Qed.

Lemma prefix_app_self : forall p b, String.prefix p (p ++ b) = true.
Proof.
  induction p as [|a p IH]; intro b; simpl.
  - destruct b; reflexivity.
  - destruct (ascii_dec a a); [apply IH | contradiction].
Qed.

Lemma contains_of_prefix : forall s p,
  String.prefix p s = true -> contains s p = true.
Proof.
  intros [|c s] p H.
  - change (contains EmptyString p) with (String.prefix p EmptyString || false).
    now rewrite H.
  - change (contains (String c s) p)
      with (String.prefix p (String c s) || contains s p).
    now rewrite H.
Qed.

Lemma contains_split : forall s p,
  contains s p = true <-> exists a b, s = (a ++ p ++ b)%string.
Proof.
  intros s p. split.
  - induction s as [|c s IH]; intro H.
    + destruct p; [|simpl in H; discriminate].
      exists EmptyString, EmptyString. reflexivity.
    + change (contains (String c s) p)
        with (String.prefix p (String c s) || contains s p) in H.
      apply orb_true_iff in H. destruct H as [H|H].
      * destruct (prefix_split _ _ H) as [b Hb]. exists EmptyString, b. exact Hb.
      * destruct (IH H) as (a & b & ->). exists (String c a), b. reflexivity.
  - intros (a & b & ->). apply contains_app_r.
    apply contains_of_prefix, prefix_app_self.
Qed.

Lemma string_app_assoc : forall a b c : string,
  ((a ++ b) ++ c)%string = (a ++ b ++ c)%string.
Proof.
  induction a as [|x a IH]; intros b c; simpl; [reflexivity | now rewrite IH].
Qed.

Lemma contains_trans : forall s big small,
  contains s big = true -> contains big small = true -> contains s small = true.
Proof.
  intros s big small H1 H2.
  apply contains_split in H1. destruct H1 as (a & b & ->).
  apply contains_split in H2. destruct H2 as (a' & b' & ->).
  apply contains_split. exists (a ++ a')%string, (b' ++ b)%string.
  now rewrite !string_app_assoc.
Qed.

Lemma two_distinct_members : forall (l : list string) a b,
  In a l -> In b l -> a <> b -> (2 <= List.length l)%nat.
Proof.
  intros [|x [|y l]] a b Ha Hb Hne; simpl in *.
  - destruct Ha.
  - destruct Ha as [->|[]], Hb as [->|[]]. contradiction.
  - lia.
Qed.

(** X21: patterns that contain one another are counted more than once.  A
    URL containing [https] (in any case) also matches [http] and scores at
    least 0.2; a URL containing [javascript] or [vbscript] also matches
    [script] and counts at least two suspicious keywords. *)
Theorem overlapping_patterns_count_twice : forall url,
  (contains (lower url) "https" = true ->
   (2 <= patterns_present url)%nat
   /\ PrimFloat.leb 0.2 (_calculate_frequency_score url) = true)
  /\ (contains (lower url) "javascript" = true
      \/ contains (lower url) "vbscript" = true ->
      2 <= _count_suspicious_keywords url).
Proof.
  intro url. split.
  - intro Hs.
    assert (Hp : contains (lower url) "http" = true)
      by (apply (contains_trans _ "https" "http" Hs); reflexivity).
    assert (H2 : (2 <= patterns_present url)%nat).
    { unfold patterns_present, common_patterns. cbv [filter]. rewrite Hs, Hp.
      destruct (contains (lower url) ".com"), (contains (lower url) ".org"),
        (contains (lower url) ".net"), (contains (lower url) "www.");
        simpl; lia. }
    split; [exact H2|].
    destruct (frequency_score_steps url) as (E & _ & H6). rewrite E.
    change 0.2%float with (nth 2 frequency_steps 0.0%float).
    now apply frequency_steps_monotone.
  - intro H.
    assert (Hscript : contains (lower url) "script" = true).
    { destruct H as [H|H];
        [apply (contains_trans _ "javascript" "script" H)
        | apply (contains_trans _ "vbscript" "script" H)]; reflexivity. }
    unfold _count_suspicious_keywords. rewrite count_fold_filter.
    assert (Hlen : (2 <= List.length (filter (contains (lower url)) suspicious_keywords))%nat).
    { destruct H as [H|H].
      - apply (two_distinct_members _ "script" "javascript");
          [apply filter_In; split; [simpl; tauto | exact Hscript]
          | apply filter_In; split; [simpl; tauto | exact H]
          | discriminate].
      - apply (two_distinct_members _ "script" "vbscript");
          [apply filter_In; split; [simpl; tauto | exact Hscript]
          | apply filter_In; split; [simpl; tauto | exact H]
          | discriminate]. }
    lia.
Qed.

Lemma overlapping_patterns_count_twice_witness :
  (2 <= patterns_present "HTTPS://example.com/login")%nat
  /\ PrimFloat.leb 0.2 (_calculate_frequency_score "HTTPS://example.com/login") = true.
Proof.
  apply (proj1 (overlapping_patterns_count_twice "HTTPS://example.com/login")).
  vm_compute. reflexivity.
Defined.
